(** * Tracing, retrying and reflective improvement of the multi-agent system

    A shallow embedding of [agents/protocol.py], [utils/tracer.py],
    [agents/agent_base.py] and [agents/patterns.py], and the properties of
    the tracer, of the retry loop and of the critique-and-revise loop.

    Conventions of the embedding.
    - A Python [str] is a [string]; its characters are read as the code
      points U+0000 to U+00FF.
    - A Python [int] is a [Z].
    - A [dict] with string keys is a [gmap string _] where only lookups
      matter, and an association list where the order of the keys is
      observable (the JSON record).
    - Everything the code takes from its environment (the wall clock, the
      uuid and timestamp factories, the model provider, the trace directory
      and the outcome of file writes) is a field of [World]; the code is a
      function from worlds to an outcome and a new world.
    - [time.time()] returns a float; the clock is modelled by rationals and
      the rounding of the float subtraction and product is left out. *)

From Stdlib Require Import ZArith QArith String Ascii List Lia.
From Stdlib Require Import DecimalString DecimalZ DecimalPos.
From stdpp Require Import base option list gmap strings.

Import ListNotations.
Local Open Scope Z_scope.
Local Open Scope string_scope.
Local Open Scope list_scope.

(** ** Python built-ins used by the code *)

Module Py.

(** An exception object; [str(e)] is its message. *)
Inductive exn := Exception (msg : string).

Definition str_exn (e : exn) : string :=
  match e with Exception m => m end.

(** The values a chat message holds under its keys. The code only ever
    formats them with [str()], so an object that is neither [None] nor a
    [str] (the list of parts that [RefinerAgent] sends) is kept as the
    text that [str()] returns on it. *)
Inductive any := None_ | Str (s : string) | Obj (rendering : string).

Definition str (v : any) : string :=
  match v with
  | None_ => "None"
  | Str s => s
  | Obj r => r
  end.

(** [d.get(k)] *)
Definition get (d : gmap string any) (k : string) : any :=
  default None_ (d !! k).

(** [d.get(k, 0)] on a dict of integers *)
Definition get0 (d : gmap string Z) (k : string) : Z :=
  default 0 (d !! k).

(** [str(n)] for an [int] *)
Definition str_int (n : Z) : string :=
  NilZero.string_of_int (Z.to_int n).

(** [int(x)]: truncation toward zero *)
Definition int (x : Q) : Z :=
  Z.quot (Qnum x) (Z.pos (Qden x)).

(** [c.lower()] on one code point below U+0100: the letters A-Z and the
    Latin-1 capitals U+00C0-U+00DE, the multiplication sign U+00D7
    excepted, move up by 32. *)
Definition lower_char (c : ascii) : ascii :=
  let n := nat_of_ascii c in
  if ((65 <=? n)%nat && (n <=? 90)%nat)
     || ((192 <=? n)%nat && (n <=? 222)%nat && negb (n =? 215)%nat)
  then ascii_of_nat (n + 32)
  else c.

(** [s.lower()] *)
Fixpoint lower (s : string) : string :=
  match s with
  | EmptyString => EmptyString
  | String c s' => String (lower_char c) (lower s')
  end.

(** [s.startswith(p)] *)
Fixpoint startswith (s p : string) : bool :=
  match p, s with
  | EmptyString, _ => true
  | String _ _, EmptyString => false
  | String a p', String b s' => if ascii_dec a b then startswith s' p' else false
  end.

(** [needle in hay] *)
Fixpoint contains (hay needle : string) : bool :=
  startswith hay needle
  || match hay with
     | EmptyString => false
     | String _ hay' => contains hay' needle
     end.

(** [s[:n]] for [n >= 0] *)
Fixpoint slice_to (n : nat) (s : string) : string :=
  match n, s with
  | O, _ => EmptyString
  | S _, EmptyString => EmptyString
  | S n', String c s' => String c (slice_to n' s')
  end.

(** [s.replace("\n", " ")] *)
Fixpoint replace_newlines (s : string) : string :=
  match s with
  | EmptyString => EmptyString
  | String c s' =>
      String (if ascii_dec c "010"%char then " "%char else c)
             (replace_newlines s')
  end.

(** [s.endswith("/")] *)
Fixpoint endswith_slash (s : string) : bool :=
  match s with
  | EmptyString => false
  | String c EmptyString => if ascii_dec c "/"%char then true else false
  | String _ s' => endswith_slash s'
  end.

(** The double quote and the line feed, as one-character strings. *)
Definition dq : string := String "034"%char EmptyString.
Definition nl : string := String "010"%char EmptyString.

(** [os.path.join(a, b)] on a POSIX system *)
Definition path_join (a b : string) : string :=
  if startswith b "/" then b
  else if (String.length a =? 0)%nat || endswith_slash a then a +:+ b
  else a +:+ "/" +:+ b.

End Py.

Arguments Py.slice_to : simpl never.
Arguments Py.replace_newlines : simpl never.
Arguments Py.lower : simpl never.
Arguments Py.contains : simpl never.
Arguments Py.str_int : simpl never.
Arguments Py.path_join : simpl never.

(** ** Outcomes and the world *)

(** A call returns a value or raises. *)
Inductive Result (A : Type) : Type :=
| Returns (a : A)
| Raises (e : Py.exn).
Arguments Returns {A} a.
Arguments Raises {A} e.

(** The levels of the loguru logger that the code uses. *)
Inductive Level := DEBUG | INFO | ERROR.

#[global] Instance Level_eq_dec : EqDecision Level.
Proof. solve_decision. Defined.

(** A prompt: the list of role/content dicts handed to [llm_call]. *)
Definition Prompt : Type := list (gmap string Py.any).

(** The environment of a run, and what the run has done to it so far. *)
Record World := {
  (** [TRACE_DIR], read from the process environment when [utils.tracer]
      is imported *)
  TRACE_DIR : string;
  (** successive readings of [time.time()], and how many were taken *)
  time_time : nat -> Q;
  ticks : nat;
  (** what the default factories of [APMessage] produce on successive
      constructions, [(str(uuid.uuid4()), datetime.utcnow().isoformat())],
      and how many messages were built *)
  factories : nat -> string * string;
  built : nat;
  (** what [llm_call] does on its successive calls, and the prompts it
      received *)
  provider : nat -> Result (string * gmap string Z);
  sent : list Prompt;
  (** whether the successive open-and-append attempts fail, how many were
      made, and the contents of the files *)
  disk : nat -> option Py.exn;
  appends : nat;
  files : gmap string string;
  (** the entries handed to the logger, oldest first *)
  logged : list (Level * string)
}.

Definition set_ticks (n : nat) (w : World) : World :=
  {| TRACE_DIR := TRACE_DIR w; time_time := time_time w; ticks := n;
     factories := factories w; built := built w;
     provider := provider w; sent := sent w;
     disk := disk w; appends := appends w; files := files w;
     logged := logged w |}.

Definition set_built (n : nat) (w : World) : World :=
  {| TRACE_DIR := TRACE_DIR w; time_time := time_time w; ticks := ticks w;
     factories := factories w; built := n;
     provider := provider w; sent := sent w;
     disk := disk w; appends := appends w; files := files w;
     logged := logged w |}.

Definition set_sent (l : list Prompt) (w : World) : World :=
  {| TRACE_DIR := TRACE_DIR w; time_time := time_time w; ticks := ticks w;
     factories := factories w; built := built w;
     provider := provider w; sent := l;
     disk := disk w; appends := appends w; files := files w;
     logged := logged w |}.

Definition set_disk (n : nat) (fs : gmap string string) (w : World) : World :=
  {| TRACE_DIR := TRACE_DIR w; time_time := time_time w; ticks := ticks w;
     factories := factories w; built := built w;
     provider := provider w; sent := sent w;
     disk := disk w; appends := n; files := fs;
     logged := logged w |}.

Definition set_logged (l : list (Level * string)) (w : World) : World :=
  {| TRACE_DIR := TRACE_DIR w; time_time := time_time w; ticks := ticks w;
     factories := factories w; built := built w;
     provider := provider w; sent := sent w;
     disk := disk w; appends := appends w; files := files w;
     logged := l |}.

(** Code that runs in a world: it returns or raises, and leaves a world. *)
Definition M (A : Type) : Type := World -> Result A * World.

Definition ret {A} (a : A) : M A := fun w => (Returns a, w).

Definition raise {A} (e : Py.exn) : M A := fun w => (Raises e, w).

Definition bind {A B} (c : M A) (k : A -> M B) : M B :=
  fun w =>
    match c w with
    | (Returns a, w') => k a w'
    | (Raises e, w') => (Raises e, w')
    end.

(** [try: c  except Exception as e: h e] *)
Definition try_except {A} (c : M A) (h : Py.exn -> M A) : M A :=
  fun w =>
    match c w with
    | (Returns a, w') => (Returns a, w')
    | (Raises e, w') => h e w'
    end.

Notation "x <- c1 ;; c2" := (bind c1 (fun x => c2))
  (at level 100, c1 at next level, right associativity).
Notation "c1 ;; c2" := (bind c1 (fun _ => c2))
  (at level 100, right associativity).

(** [for x in l: body x] *)
Fixpoint for_each {A} (l : list A) (body : A -> M unit) : M unit :=
  match l with
  | [] => ret tt
  | x :: l' => body x ;; for_each l' body
  end.

(** *** The collaborators *)

Module time.
(** [time.time()] *)
Definition time : M Q :=
  fun w => (Returns (time_time w (ticks w)), set_ticks (S (ticks w)) w).
End time.

Module logger.
Definition emit (lv : Level) (msg : string) : M unit :=
  fun w => (Returns tt, set_logged (logged w ++ [(lv, msg)]) w).
Definition debug := emit DEBUG.
Definition info := emit INFO.
Definition error := emit ERROR.
End logger.

(** [llm_call(messages)] of [utils/model.py]: the provider is outside the
    program; its replies and failures are those of the world. *)
Definition llm_call (messages : Prompt) : M (string * gmap string Z) :=
  fun w =>
    (provider w (List.length (sent w)), set_sent (sent w ++ [messages]) w).

(** [with open(path, "a") as f: f.write(data)]: an attempt that the disk
    refuses raises and leaves the files as they are; otherwise [data] is
    appended to the file, which is created when absent. *)
Definition append_file (path data : string) : M unit :=
  fun w =>
    match disk w (appends w) with
    | Some e => (Raises e, set_disk (S (appends w)) (files w) w)
    | None =>
        (Returns tt,
         set_disk (S (appends w))
                  (<[path := default EmptyString (files w !! path) +:+ data]> (files w)) w)
    end.

(** ** JSON text: [json.dumps] with its default settings *)

Module json.

(** What [json.dumps] can be handed by [APExchange.dict()]: [None],
    [bool], [int], [str], lists, tuples and dicts with string keys
    (floats, and objects that [json.dumps] rejects, are left out). A dict
    is the list of its items in insertion order. *)
#[local] Unset Elimination Schemes.
Inductive value :=
| VNone
| VBool (b : bool)
| VInt (n : Z)
| VStr (s : string)
| VList (l : list value)
| VTuple (l : list value)
| VDict (d : list (string * value)).
#[local] Set Elimination Schemes.

Definition hex_digit (n : nat) : ascii :=
  match n with
  | 0 => "0" | 1 => "1" | 2 => "2" | 3 => "3" | 4 => "4" | 5 => "5"
  | 6 => "6" | 7 => "7" | 8 => "8" | 9 => "9" | 10 => "a" | 11 => "b"
  | 12 => "c" | 13 => "d" | 14 => "e" | _ => "f"
  end%nat%char.

(** The replacement of one character under [ensure_ascii=True]: the short
    escapes, the printable ASCII characters as they are, and
    [\u00xx] (four lower-case hexadecimal digits) for the others. *)
Definition escape_char (c : ascii) : string :=
  let n := nat_of_ascii c in
  if (n =? 34)%nat then "\" +:+ Py.dq
  else if (n =? 92)%nat then "\\"
  else if (n =? 10)%nat then "\n"
  else if (n =? 13)%nat then "\r"
  else if (n =? 9)%nat then "\t"
  else if (n =? 8)%nat then "\b"
  else if (n =? 12)%nat then "\f"
  else if ((32 <=? n) && (n <=? 126))%nat then String c EmptyString
  else String "\" (String "u" (String "0" (String "0"
         (String (hex_digit (n / 16)) (String (hex_digit (n mod 16))
            EmptyString))))).

Fixpoint escape (s : string) : string :=
  match s with
  | EmptyString => EmptyString
  | String c s' => escape_char c +:+ escape s'
  end.

(** [encode_basestring_ascii] *)
Definition dumps_str (s : string) : string :=
  Py.dq +:+ escape s +:+ Py.dq.

(** [json.dumps(v)]: item separator [", "], key separator [": "]. *)
Fixpoint dumps (v : value) : string :=
  match v with
  | VNone => "null"
  | VBool true => "true"
  | VBool false => "false"
  | VInt n => Py.str_int n
  | VStr s => dumps_str s
  | VList l => "[" +:+ String.concat ", " (map dumps l) +:+ "]"
  | VTuple l => "[" +:+ String.concat ", " (map dumps l) +:+ "]"
  | VDict d =>
      "{" +:+ String.concat ", "
                (map (fun kv => dumps_str (fst kv) +:+ ": " +:+ dumps (snd kv)) d)
          +:+ "}"
  end.

End json.

(** ** [agents/protocol.py] *)

Inductive Role := user | agent | validator | system | tool.

#[global] Instance Role_eq_dec : EqDecision Role.
Proof. solve_decision. Defined.

Definition Role_str (r : Role) : string :=
  match r with
  | user => "user"
  | agent => "agent"
  | validator => "validator"
  | system => "system"
  | tool => "tool"
  end.

Definition optional {A} (f : A -> json.value) (o : option A) : json.value :=
  match o with
  | Some a => f a
  | None => json.VNone
  end.

Module APMessage.

Record t := {
  id : string;
  role : Role;
  sender : string;
  content : string;
  tool_name : option string;
  tool_args : option (list (string * json.value));
  ts : string
}.

(** [APMessage(role=..., sender=..., content=...)]: the identifier and
    the timestamp come from the default factories, the tool fields
    default to [None]. *)
Definition new (role : Role) (sender content : string) : M t :=
  fun w =>
    let '(uuid, stamp) := factories w (built w) in
    (Returns {| id := uuid; role := role; sender := sender;
                content := content; tool_name := None; tool_args := None;
                ts := stamp |},
     set_built (S (built w)) w).

(** [self.dict()] *)
Definition dict (self : t) : json.value :=
  json.VDict
    [ ("id", json.VStr (id self));
      ("role", json.VStr (Role_str (role self)));
      ("sender", json.VStr (sender self));
      ("content", json.VStr (content self));
      ("tool_name", optional json.VStr (tool_name self));
      ("tool_args", optional json.VDict (tool_args self));
      ("ts", json.VStr (ts self)) ].

End APMessage.

Module APExchange.

Record t := {
  task_id : string;
  messages : list APMessage.t;
  cost_tokens_prompt : Z;
  cost_tokens_output : Z;
  latency_ms : option Z;
  verdict : option string
}.

(** [APExchange(task_id=task_id, messages=messages)] *)
Definition new (task_id : string) (messages : list APMessage.t) : t :=
  {| task_id := task_id; messages := messages;
     cost_tokens_prompt := 0; cost_tokens_output := 0;
     latency_ms := None; verdict := None |}.

(** [self.dict()] *)
Definition dict (self : t) : json.value :=
  json.VDict
    [ ("task_id", json.VStr (task_id self));
      ("messages", json.VList (map APMessage.dict (messages self)));
      ("cost_tokens_prompt", json.VInt (cost_tokens_prompt self));
      ("cost_tokens_output", json.VInt (cost_tokens_output self));
      ("latency_ms", optional json.VInt (latency_ms self));
      ("verdict", optional json.VStr (verdict self)) ].

End APExchange.

(** ** [utils/tracer.py] *)

Module Tracer.

Record t := {
  task_id : string;
  _start : Q;
  exchange : APExchange.t
}.

Definition __init__ (task_id : string) : M t :=
  start <- time.time ;;
  ret {| task_id := task_id; _start := start;
         exchange := APExchange.new task_id [] |}.

(** [self.exchange.messages.append(msg)] *)
Definition log (self : t) (msg : APMessage.t) : t :=
  let ex := exchange self in
  {| task_id := task_id self; _start := _start self;
     exchange :=
       {| APExchange.task_id := APExchange.task_id ex;
          APExchange.messages := APExchange.messages ex ++ [msg];
          APExchange.cost_tokens_prompt := APExchange.cost_tokens_prompt ex;
          APExchange.cost_tokens_output := APExchange.cost_tokens_output ex;
          APExchange.latency_ms := APExchange.latency_ms ex;
          APExchange.verdict := APExchange.verdict ex |} |}.

(** The four assignments at the head of [finalize], given the reading
    [now] of the clock. *)
Definition stamp (self : t) (now : Q) (verdict : option string)
    (prompt_tokens output_tokens : Z) : t :=
  let ex := exchange self in
  {| task_id := task_id self; _start := _start self;
     exchange :=
       {| APExchange.task_id := APExchange.task_id ex;
          APExchange.messages := APExchange.messages ex;
          APExchange.cost_tokens_prompt :=
            APExchange.cost_tokens_prompt ex + prompt_tokens;
          APExchange.cost_tokens_output :=
            APExchange.cost_tokens_output ex + output_tokens;
          APExchange.latency_ms :=
            Some (Py.int (Qmult (Qminus now (_start self)) (inject_Z 1000)));
          APExchange.verdict :=
            match verdict with
            | Some v => Some v
            | None => APExchange.verdict ex
            end |} |}.

Definition path (self : t) : M string :=
  fun w => (Returns (Py.path_join (TRACE_DIR w) (task_id self +:+ ".jsonl")), w).

(** [finalize] returns nothing; the embedding returns the tracer as the
    call leaves it. *)
Definition finalize (self : t) (verdict : option string)
    (prompt_tokens output_tokens : Z) : M t :=
  now <- time.time ;;
  let self' := stamp self now verdict prompt_tokens output_tokens in
  path <- path self' ;;
  try_except
    (append_file path
       (json.dumps (APExchange.dict (exchange self')) +:+ Py.nl) ;;
     logger.info ("Trace saved to " +:+ path))
    (fun e =>
       logger.error ("Failed to write trace file " +:+ path +:+ ": "
                     +:+ Py.str_exn e)) ;;
  ret self'.

End Tracer.

(** ** [agents/agent_base.py] *)

Module AgentBase.

Record t := {
  name : string;
  max_retries : Z;
  verbose : bool
}.

Definition __init__ (name : string) (max_retries : Z) (verbose : bool) : t :=
  {| name := name; max_retries := max_retries; verbose := verbose |}.

(** The body of the [try] block: the log of the prompt, the model call,
    the log of the reply, [return response_text]. *)
Definition attempt (self : t) (messages : Prompt) : M string :=
  (if verbose self then
     logger.info ("[" +:+ name self +:+ "] Sending messages to LLM:") ;;
     for_each messages (fun msg =>
       let role := Py.get msg "role" in
       let content_preview :=
         Py.replace_newlines (Py.slice_to 120 (Py.str (Py.get msg "content"))) in
       logger.debug ("  " +:+ Py.str role +:+ ": " +:+ content_preview +:+ "..."))
   else ret tt) ;;
  reply <- llm_call messages ;;
  let response_text := fst reply in
  (if verbose self then
     let preview := Py.replace_newlines (Py.slice_to 120 response_text) in
     logger.info ("[" +:+ name self
                  +:+ "] Received response (first 120 chars): " +:+ preview)
   else ret tt) ;;
  ret response_text.

Definition error_entry (self : t) (e : Py.exn) (retries : Z) : string :=
  "[" +:+ name self +:+ "] Error during LLM call: " +:+ Py.str_exn e
  +:+ ". Retry " +:+ Py.str_int retries +:+ "/"
  +:+ Py.str_int (max_retries self).

Definition failure (self : t) : Py.exn :=
  Py.Exception ("[" +:+ name self +:+ "] Failed to get response after "
                +:+ Py.str_int (max_retries self) +:+ " attempts").

(** [while retries < self.max_retries: ...], then the final [raise]. Each
    unit of [fuel] pays for one test of the loop condition; [None] is a
    run that the fuel did not cover. *)
Fixpoint while_retries (fuel : nat) (self : t) (messages : Prompt)
    (retries : Z) (w : World) : option (Result string * World) :=
  match fuel with
  | O => None
  | S fuel' =>
      if (retries <? max_retries self)%Z then
        match attempt self messages w with
        | (Returns response_text, w') => Some (Returns response_text, w')
        | (Raises e, w') =>
            let retries := retries + 1 in
            while_retries fuel' self messages retries
              (snd (logger.error (error_entry self e retries) w'))
        end
      else Some (Raises (failure self), w)
  end.

(** [call_openai]; [temperature] and [max_tokens] are accepted and not
    used, as in the source. *)
Definition call_openai (self : t) (messages : Prompt) (temperature : Q)
    (max_tokens : Z) (w : World) : option (Result string * World) :=
  while_retries (S (Z.to_nat (max_retries self))) self messages 0 w.

End AgentBase.

(** ** [agents/patterns.py] *)

Definition CRITIQUE_PROMPT : string :=
  "You are a meticulous reviewer. Given the task description and draft, "
  +:+ "list concrete issues (if any) and propose exact fixes. Return JSON "
  +:+ "with fields: {" +:+ Py.dq +:+ "issues" +:+ Py.dq +:+ ": [...], "
  +:+ Py.dq +:+ "revise_required" +:+ Py.dq +:+ ": true/false, "
  +:+ Py.dq +:+ "patch" +:+ Py.dq +:+ ": " +:+ Py.dq +:+ "..." +:+ Py.dq +:+ "}.".

Definition REVISION_PROMPT : string :=
  "Apply the patch or produce a revised complete draft.".

(** The text searched for in the lower-cased critique. *)
Definition no_revision_marker : string :=
  Py.dq +:+ "revise_required" +:+ Py.dq +:+ ": false".

Definition chat (role content : string) : gmap string Py.any :=
  {[ "role" := Py.Str role; "content" := Py.Str content ]}.

(** The body of [for attempt in range(max_retries + 1)], over the attempts
    that remain; the statement after the loop is the empty case. The local
    tracer is returned next to the draft. *)
Fixpoint reflective_loop (attempts : list Z) (agent_name task_desc : string)
    (max_retries : Z) (tracer : Tracer.t) (current_draft : string)
    : M (string * Tracer.t) :=
  match attempts with
  | [] => ret (current_draft, tracer)
  | attempt :: attempts' =>
      let critique_message :=
        "TASK:" +:+ Py.nl +:+ task_desc +:+ Py.nl +:+ Py.nl +:+ "DRAFT:"
        +:+ Py.nl +:+ current_draft +:+ Py.nl in
      let critic_prompt :=
        [chat "system" CRITIQUE_PROMPT; chat "user" critique_message] in
      reply1 <- llm_call critic_prompt ;;
      let critique_response := fst reply1 in
      let usage1 := snd reply1 in
      msg <- APMessage.new validator "critic" critique_response ;;
      let tracer := Tracer.log tracer msg in
      if Py.contains (Py.lower critique_response) no_revision_marker then
        tracer <- Tracer.finalize tracer (Some "pass")
                    (Py.get0 usage1 "prompt_tokens")
                    (Py.get0 usage1 "output_tokens") ;;
        ret (current_draft, tracer)
      else
        let revision_prompt :=
          [chat "system" REVISION_PROMPT; chat "user" critique_response] in
        reply2 <- llm_call revision_prompt ;;
        let revised := fst reply2 in
        let usage2 := snd reply2 in
        msg <- APMessage.new agent (agent_name +:+ "-reviser") revised ;;
        let tracer := Tracer.log tracer msg in
        let current_draft := revised in
        if (attempt =? max_retries)%Z then
          tracer <- Tracer.finalize tracer (Some "pass_after_revise")
                      (Py.get0 usage1 "prompt_tokens"
                       + Py.get0 usage2 "prompt_tokens")
                      (Py.get0 usage1 "output_tokens"
                       + Py.get0 usage2 "output_tokens") ;;
          ret (current_draft, tracer)
        else
          reflective_loop attempts' agent_name task_desc max_retries tracer
            current_draft
  end.

(** [range(n)] *)
Definition range (n : Z) : list Z := seqZ 0 n.

Definition reflective_improve (task_id agent_name task_desc draft : string)
    (max_retries : Z) : M (string * Tracer.t) :=
  tracer <- Tracer.__init__ task_id ;;
  msg <- APMessage.new user "user" task_desc ;;
  let tracer := Tracer.log tracer msg in
  msg <- APMessage.new agent agent_name draft ;;
  let tracer := Tracer.log tracer msg in
  reflective_loop (range (max_retries + 1)) agent_name task_desc max_retries
    tracer draft.

(** ** Observations on a run *)

(** The number of calls made to the model so far. *)
Definition llm_calls (w : World) : nat := List.length (sent w).

(** The number of entries logged at level [lv] so far. *)
Definition entries (lv : Level) (w : World) : nat :=
  List.length (List.filter (fun e => bool_decide (fst e = lv)) (logged w)).

#[global] Instance any_eq_dec : EqDecision Py.any.
Proof. solve_decision. Defined.

(** A prompt whose first message carries the given system instruction. *)
Definition opens_with (instruction : string) (p : Prompt) : bool :=
  match p with
  | m :: _ => bool_decide (m !! "content" = Some (Py.Str instruction))
  | [] => false
  end.

Definition critique_calls (w : World) : nat :=
  List.length (List.filter (opens_with CRITIQUE_PROMPT) (sent w)).

Definition revision_calls (w : World) : nat :=
  List.length (List.filter (opens_with REVISION_PROMPT) (sent w)).

(** [a] is [b] with some of its letters a-z written in upper case. *)
Definition upper_of (a b : ascii) : Prop :=
  (97 <= nat_of_ascii b <= 122)%nat /\ nat_of_ascii a = (nat_of_ascii b - 32)%nat.

Fixpoint case_variant (a b : string) : Prop :=
  match a, b with
  | EmptyString, EmptyString => True
  | String x a', String y b' => (x = y \/ upper_of x y) /\ case_variant a' b'
  | _, _ => False
  end.

(** The uses of a tracer between its construction and the end of a task. *)
Inductive use :=
| Log (msg : APMessage.t)
| Finalize (verdict : option string) (prompt_tokens output_tokens : Z).

(** The states a tracer goes through under a sequence of uses, one per use,
    oldest first. *)
Fixpoint states (self : Tracer.t) (uses : list use) (w : World)
    : list Tracer.t :=
  match uses with
  | [] => []
  | Log msg :: uses' =>
      let self' := Tracer.log self msg in
      self' :: states self' uses' w
  | Finalize verdict p o :: uses' =>
      match Tracer.finalize self verdict p o w with
      | (Returns self', w') => self' :: states self' uses' w'
      | (Raises _, _) => []
      end
  end.

Definition nonnegative (u : use) : Prop :=
  match u with
  | Log _ => True
  | Finalize _ p o => 0 <= p /\ 0 <= o
  end.

Definition prompt_cost (self : Tracer.t) : Z :=
  APExchange.cost_tokens_prompt (Tracer.exchange self).

Definition output_cost (self : Tracer.t) : Z :=
  APExchange.cost_tokens_output (Tracer.exchange self).

Definition latency (self : Tracer.t) : option Z :=
  APExchange.latency_ms (Tracer.exchange self).

(** ** Scripted worlds, for running the code on concrete inputs *)

Definition usage (prompt_tokens output_tokens : Z) : gmap string Z :=
  {[ "prompt_tokens" := prompt_tokens; "output_tokens" := output_tokens ]}.

(** A world whose clock advances by one second per reading, whose factories
    number the messages, whose provider plays [replies] and then fails, and
    whose disk plays [faults] and then accepts every write. *)
Definition scripted (replies : list (Result (string * gmap string Z)))
    (faults : list (option Py.exn)) : World :=
  {| TRACE_DIR := "traces";
     time_time := fun n => inject_Z (Z.of_nat n);
     ticks := 0;
     factories := fun n => ("id-" +:+ Py.str_int (Z.of_nat n),
                            "ts-" +:+ Py.str_int (Z.of_nat n));
     built := 0;
     provider := fun n => nth n replies (Raises (Py.Exception "provider down"));
     sent := [];
     disk := fun n => nth n faults None;
     appends := 0;
     files := ∅;
     logged := [] |}.

(** What a use adds to the two token totals. *)
Definition prompt_tokens_of (u : use) : Z :=
  match u with
  | Log _ => 0
  | Finalize _ p _ => p
  end.

Definition output_tokens_of (u : use) : Z :=
  match u with
  | Log _ => 0
  | Finalize _ _ o => o
  end.

Definition sample_message : APMessage.t :=
  {| APMessage.id := "m"; APMessage.role := user;
     APMessage.sender := "user"; APMessage.content := "hi";
     APMessage.tool_name := None; APMessage.tool_args := None;
     APMessage.ts := "now" |}.

Definition sample_uses : list use :=
  [Finalize None 5 1; Log sample_message; Finalize (Some "pass") 7 2;
   Finalize None 0 0].

(** The outcome of the [k]-th model call made from world [w] on. *)
Definition outcome (w : World) (k : nat) : Result (string * gmap string Z) :=
  provider w (llm_calls w + k).

Definition fails {A} (r : Result A) : Prop :=
  exists e, r = Raises e.

Arguments CRITIQUE_PROMPT : simpl never.
Arguments REVISION_PROMPT : simpl never.
Arguments no_revision_marker : simpl never.

(** Who said what: a message without its identifier and timestamp. *)
Definition said (m : APMessage.t) : Role * string * string :=
  (APMessage.role m, APMessage.sender m, APMessage.content m).

Definition transcript (self : Tracer.t) : list (Role * string * string) :=
  map said (APExchange.messages (Tracer.exchange self)).

(** A critique that asks for a revision, and one that accepts the draft in
    upper case. *)
Definition asks_revision : string :=
  "{" +:+ Py.dq +:+ "revise_required" +:+ Py.dq +:+ ": true}".

Definition accepts_upper : string :=
  Py.dq +:+ "REVISE_REQUIRED" +:+ Py.dq +:+ ": FALSE".

(** ** Reading a record back *)

(** Modelled from the spec: the parser that reads a record back. The
    repository writes records ([Tracer.finalize]) and never rebuilds an
    exchange from one; the spec's round trip needs the reader, modelled
    here as [json.loads] followed by the validation that the constructor
    of [APExchange] performs on the keys of the object. [json.loads] is modelled on the texts
    that [json.dumps] can produce: integers but no floats, strings with
    their escapes, arrays and objects, white space between tokens. *)
Module reader.

Import json.
















(** [obj.get(k)] on a parsed object *)
Fixpoint field (k : string) (d : list (string * value)) : option value :=
  match d with
  | [] => None
  | (k', v) :: d' => if String.eqb k k' then Some v else field k d'
  end.

Definition as_str (v : option value) : option string :=
  match v with
  | Some (VStr s) => Some s
  | _ => None
  end.

Definition as_int (v : option value) : option Z :=
  match v with
  | Some (VInt n) => Some n
  | _ => None
  end.

(** An [Optional] field: absent or [null] is [None]. *)
Definition as_optional {A} (read : option value -> option A)
    (v : option value) : option (option A) :=
  match v with
  | None => Some None
  | Some VNone => Some None
  | Some _ =>
      match read v with
      | Some a => Some (Some a)
      | None => None
      end
  end.

Definition as_dict (v : option value) : option (list (string * value)) :=
  match v with
  | Some (VDict d) => Some d
  | _ => None
  end.

Definition as_role (v : option value) : option Role :=
  match as_str v with
  | Some s =>
      if String.eqb s "user" then Some user
      else if String.eqb s "agent" then Some agent
      else if String.eqb s "validator" then Some validator
      else if String.eqb s "system" then Some system
      else if String.eqb s "tool" then Some tool
      else None
  | None => None
  end.

(** [APMessage] built from the keys of an object that carries the
    identifier and the timestamp. *)
Definition message (v : value) : option APMessage.t :=
  match v with
  | VDict d =>
      match as_str (field "id" d), as_role (field "role" d),
            as_str (field "sender" d), as_str (field "content" d),
            as_optional as_str (field "tool_name" d),
            as_optional as_dict (field "tool_args" d),
            as_str (field "ts" d) with
      | Some i, Some r, Some s, Some c, Some tn, Some ta, Some t =>
          Some {| APMessage.id := i; APMessage.role := r;
                  APMessage.sender := s; APMessage.content := c;
                  APMessage.tool_name := tn; APMessage.tool_args := ta;
                  APMessage.ts := t |}
      | _, _, _, _, _, _, _ => None
      end
  | _ => None
  end.

Fixpoint message_list (l : list value) : option (list APMessage.t) :=
  match l with
  | [] => Some []
  | v :: l' =>
      match message v, message_list l' with
      | Some m, Some ms => Some (m :: ms)
      | _, _ => None
      end
  end.

(** [APExchange] built from the keys of an object *)
Definition exchange (v : value) : option APExchange.t :=
  match v with
  | VDict d =>
      match as_str (field "task_id" d),
            match field "messages" d with
            | Some (VList l) => message_list l
            | _ => None
            end,
            as_int (field "cost_tokens_prompt" d),
            as_int (field "cost_tokens_output" d),
            as_optional as_int (field "latency_ms" d),
            as_optional as_str (field "verdict" d) with
      | Some t, Some ms, Some cp, Some co, Some l, Some vd =>
          Some {| APExchange.task_id := t; APExchange.messages := ms;
                  APExchange.cost_tokens_prompt := cp;
                  APExchange.cost_tokens_output := co;
                  APExchange.latency_ms := l; APExchange.verdict := vd |}
      | _, _, _, _, _, _ => None
      end
  | _ => None
  end.


End reader.

(** The record that [finalize] writes for an exchange. *)
Definition record (ex : APExchange.t) : string :=
  json.dumps (APExchange.dict ex) +:+ Py.nl.












(** The text of one item of a dict. *)
Definition member_text (kv : string * json.value) : string :=
  json.dumps_str (fst kv) +:+ ": " +:+ json.dumps (snd kv).


(** ** The life of a tracer *)

(** The tracer and the world after a sequence of uses. *)
Fixpoint run (self : Tracer.t) (uses : list use) (w : World)
    : Tracer.t * World :=
  match uses with
  | [] => (self, w)
  | Log msg :: uses' => run (Tracer.log self msg) uses' w
  | Finalize verdict p o :: uses' =>
      match Tracer.finalize self verdict p o w with
      | (Returns self', w') => run self' uses' w'
      | (Raises _, w') => (self, w')
      end
  end.

(** The messages that a sequence of uses logs, in order. *)
Fixpoint logged_messages (uses : list use) : list APMessage.t :=
  match uses with
  | [] => []
  | Log msg :: uses' => msg :: logged_messages uses'
  | Finalize _ _ _ :: uses' => logged_messages uses'
  end.

(** The last verdict that a sequence of uses gives, [v0] when it gives
    none. *)
Fixpoint last_verdict (v0 : option string) (uses : list use) : option string :=
  match uses with
  | [] => v0
  | Log _ :: uses' => last_verdict v0 uses'
  | Finalize None _ _ :: uses' => last_verdict v0 uses'
  | Finalize (Some v) _ _ :: uses' => last_verdict (Some v) uses'
  end.

(** The path of the trace file of a tracer. *)
Definition trace_path (self : Tracer.t) (w : World) : string :=
  Py.path_join (TRACE_DIR w) (Tracer.task_id self +:+ ".jsonl").

(** What a file holds, the empty text when it does not exist. *)
Definition content_of (w : World) (p : string) : string :=
  default EmptyString (files w !! p).

(** Every character is a printable ASCII character, U+0020 to U+007E. *)
Fixpoint printable (s : string) : bool :=
  match s with
  | EmptyString => true
  | String c s' =>
      ((32 <=? nat_of_ascii c) && (nat_of_ascii c <=? 126))%nat && printable s'
  end.

(** ** The parts of one iteration of the reflective loop *)

(** The prompt sent to the critic for a draft. *)
Definition critic_prompt (task_desc current_draft : string) : Prompt :=
  [chat "system" CRITIQUE_PROMPT;
   chat "user" ("TASK:" +:+ Py.nl +:+ task_desc +:+ Py.nl +:+ Py.nl +:+ "DRAFT:"
                +:+ Py.nl +:+ current_draft +:+ Py.nl)].

(** The prompt sent to the reviser for a critique. *)
Definition revision_prompt (critique_response : string) : Prompt :=
  [chat "system" REVISION_PROMPT; chat "user" critique_response].

(** The message that [APMessage.new] builds in world [w]. *)
Definition built_message (w : World) (r : Role) (sender content : string)
    : APMessage.t :=
  {| APMessage.id := fst (factories w (built w));
     APMessage.role := r; APMessage.sender := sender;
     APMessage.content := content; APMessage.tool_name := None;
     APMessage.tool_args := None;
     APMessage.ts := snd (factories w (built w)) |}.

(** The content of the last message of an agent, [d] when there is none. *)
Definition latest_draft (d : option string) (msgs : list APMessage.t)
    : option string :=
  fold_left
    (fun acc m =>
       match APMessage.role m with
       | agent => Some (APMessage.content m)
       | _ => acc
       end)
    msgs d.

(** The entries that the critic and the reviser add to the transcript in
    the iterations [0 .. n-1], for the replies [crit i] and [rev i]. *)
Definition rounds (agent_name : string) (crit rev : nat -> string)
    (n : nat) : list (Role * string * string) :=
  flat_map
    (fun i => [(validator, "critic", crit i);
               (agent, agent_name +:+ "-reviser", rev i)])
    (seq 0 n).

(** The tracer and the world at the head of the loop of
    [reflective_improve]: the tracer is built and holds the task
    description and the initial draft. *)
Definition opening (task_id agent_name task_desc draft : string) (w : World)
    : Tracer.t * World :=
  let w1 := set_ticks (S (ticks w)) w in
  let w2 := set_built (S (built w1)) w1 in
  (Tracer.log
     (Tracer.log
        {| Tracer.task_id := task_id; Tracer._start := time_time w (ticks w);
           Tracer.exchange := APExchange.new task_id [] |}
        (built_message w1 user "user" task_desc))
     (built_message w2 agent agent_name draft),
   set_built (S (built w2)) w2).

(** ** The log of the retry loop *)

(** What one attempt logs before the model call. *)
Definition prompt_log (self : AgentBase.t) (messages : Prompt)
    : list (Level * string) :=
  if AgentBase.verbose self then
    (INFO, "[" +:+ AgentBase.name self +:+ "] Sending messages to LLM:")
    :: map (fun msg =>
              (DEBUG,
               "  " +:+ Py.str (Py.get msg "role") +:+ ": "
               +:+ Py.replace_newlines
                     (Py.slice_to 120 (Py.str (Py.get msg "content")))
               +:+ "..."))
         messages
  else [].

(** What one attempt logs after a reply. *)
Definition reply_log (self : AgentBase.t) (response_text : string)
    : list (Level * string) :=
  if AgentBase.verbose self then
    [(INFO, "[" +:+ AgentBase.name self
            +:+ "] Received response (first 120 chars): "
            +:+ Py.replace_newlines (Py.slice_to 120 response_text))]
  else [].

(** What [k] failed attempts log, the [i]-th failing with [e i], when
    [done] retries were counted before them. *)
Definition retry_log (self : AgentBase.t) (messages : Prompt)
    (e : nat -> Py.exn) (done : Z) (k : nat) : list (Level * string) :=
  flat_map
    (fun i => prompt_log self messages
              ++ [(ERROR, AgentBase.error_entry self (e i)
                            (done + Z.of_nat (S i)))])
    (seq 0 k).

(** The number of entries of a level in a piece of log. *)
Definition count_level (lv : Level) (l : list (Level * string)) : nat :=
  List.length (List.filter (fun e => bool_decide (fst e = lv)) l).

(** ** [utils/memory.py]: the sliding window *)

(** The exceptions that the constructors and the lookups below raise. *)
Inductive error := ValueError (msg : string).

Module SlidingMemory.

(** A [deque(maxlen=k)] and its bound. *)
Record t := {
  maxlen : Z;
  buf : list string
}.

(** [deque(maxlen=k)] refuses a negative bound. *)
Definition __init__ (k : Z) : error + t :=
  if (k <? 0)%Z then inl (ValueError "maxlen must be non-negative")
  else inr {| maxlen := k; buf := [] |}.

(** [self.buf.append(text)]: the text goes to the right end; a deque that
    has grown past its bound gives up its leftmost item. *)
Definition add (self : t) (text : string) : t :=
  let grown := buf self ++ [text] in
  {| maxlen := maxlen self;
     buf := if (maxlen self <? Z.of_nat (List.length grown))%Z
            then tail grown else grown |}.

(** ["\n".join(self.buf)] *)
Definition context (self : t) : string :=
  String.concat Py.nl (buf self).


End SlidingMemory.

(** ** [agents/__init__.py]: the registry of agents *)

(** The agent classes; an instance is the state that [AgentBase.__init__]
    stores, and its class shows in its name. *)
Definition SummarizeTool := AgentBase.__init__ "SummarizeTool".
Definition WriteArticleTool := AgentBase.__init__ "WriteArticleTool".
Definition SanitizeDataTool := AgentBase.__init__ "SanitizeDataTool".
Definition WriteArticleValidatorAgent :=
  AgentBase.__init__ "WriteArticleValidatorAgent".
Definition SanitizeDataValidatorAgent :=
  AgentBase.__init__ "SanitizeDataValidatorAgent".
Definition RefinerAgent := AgentBase.__init__ "RefinerAgent".
Definition ValidatorAgent := AgentBase.__init__ "ValidatorAgent".

Module AgentManager.

Record t := {
  agents : gmap string AgentBase.t
}.

(** The class [SummarizeValidatorAgent] is imported from a module that is
    not among the sources; its constructor is a parameter. *)
Definition __init__ (SummarizeValidatorAgent : Z -> bool -> AgentBase.t)
    (max_retries : Z) (verbose : bool) : t :=
  {| agents :=
       {[ "summarize" := SummarizeTool max_retries verbose;
          "write_article" := WriteArticleTool max_retries verbose;
          "sanitize_data" := SanitizeDataTool max_retries verbose;
          "summarize_validator" := SummarizeValidatorAgent max_retries verbose;
          "write_article_validator" :=
            WriteArticleValidatorAgent max_retries verbose;
          "sanitize_data_validator" :=
            SanitizeDataValidatorAgent max_retries verbose;
          "refiner" := RefinerAgent max_retries verbose;
          "validator" := ValidatorAgent max_retries verbose ]} |}.

Definition get_agent (self : t) (agent_name : string) : error + AgentBase.t :=
  match agents self !! agent_name with
  | Some found => inr found
  | None => inl (ValueError ("Agent '" +:+ agent_name +:+ "' not found."))
  end.

End AgentManager.

(** The names under which the manager registers its agents. *)
Definition registered : list string :=
  ["summarize"; "write_article"; "sanitize_data"; "summarize_validator";
   "write_article_validator"; "sanitize_data_validator"; "refiner";
   "validator"].

(** ** [app.py]: what the trace viewer reads on one line *)

(** The body of the inner loop of [display_traces] (lines 36 to 51), as a
    function of the line. The loop calls the library's [json.loads] and
    the [get] of dictionaries, which are [reader.loads] and [reader.field];
    nothing here validates an exchange. Drawing the row (streamlit) is left
    out: a line gives the values that the row would show. *)
Module app.

    (* an exception that the loop does not catch *)

(** [d.get(k, default)] *)
Definition get (d : list (string * json.value)) (k : string)
    (default : json.value) : json.value :=
  match reader.field k d with
  | Some v => v
  | None => default
  end.



End app.

(** * Properties *)

(** ** The tracer *)

Lemma finalize_eq (self : Tracer.t) (verdict : option string) (p o : Z)
    (w : World) :
  let now := time_time w (ticks w) in
  let self' := Tracer.stamp self now verdict p o in
  let path := Py.path_join (TRACE_DIR w) (Tracer.task_id self +:+ ".jsonl") in
  let line := json.dumps (APExchange.dict (Tracer.exchange self')) +:+ Py.nl in
  let w1 := set_ticks (S (ticks w)) w in
  Tracer.finalize self verdict p o w =
  (Returns self',
   match disk w (appends w) with
   | Some e =>
       set_logged
         (logged w ++ [(ERROR, "Failed to write trace file " +:+ path +:+ ": "
                               +:+ Py.str_exn e)])
         (set_disk (S (appends w)) (files w) w1)
   | None =>
       set_logged (logged w ++ [(INFO, "Trace saved to " +:+ path)])
         (set_disk (S (appends w))
            (<[path := default EmptyString (files w !! path) +:+ line]> (files w))
            w1)
   end).
Proof.
  unfold Tracer.finalize, bind, try_except, time.time, Tracer.path, append_file,
    logger.info, logger.error, logger.emit, ret.
  cbn [fst snd disk appends files logged set_ticks set_disk set_logged
       TRACE_DIR Tracer.task_id Tracer.stamp].
  destruct (disk w (appends w)); reflexivity.
Qed.

Lemma init_eq (task_id : string) (w : World) :
  Tracer.__init__ task_id w =
  (Returns {| Tracer.task_id := task_id;
              Tracer._start := time_time w (ticks w);
              Tracer.exchange := APExchange.new task_id [] |},
   set_ticks (S (ticks w)) w).
Proof. reflexivity. Qed.

(** C3, as the claim states it, fails: constructing a tracer with the empty
    task id returns a tracer, it does not raise. *)
Lemma tracer_init_empty_task_id_returns :
  exists self,
    fst (Tracer.__init__ EmptyString (scripted [] [])) = Returns self
    /\ Tracer.task_id self = EmptyString
    /\ APExchange.messages (Tracer.exchange self) = [].
Proof. eexists. split; [reflexivity | split; reflexivity]. Qed.

(** C3, amended: constructing a tracer succeeds for every task id, the
    empty one included; the new tracer holds the task id, an exchange with
    no message, zero costs, no latency and no verdict, and construction
    never raises. *)
Theorem tracer_init_always_succeeds (task_id : string) (w : World) :
  exists self,
    fst (Tracer.__init__ task_id w) = Returns self
    /\ Tracer.task_id self = task_id
    /\ APExchange.task_id (Tracer.exchange self) = task_id
    /\ APExchange.messages (Tracer.exchange self) = []
    /\ prompt_cost self = 0 /\ output_cost self = 0
    /\ latency self = None
    /\ APExchange.verdict (Tracer.exchange self) = None.
Proof.
  rewrite init_eq. eexists. split; [reflexivity|].
  repeat split; reflexivity.
Qed.



(** C4: [finalize] never raises. Whatever the tracer, the arguments and the
    world, the call returns; when the disk refuses the write, the files
    are left as they were and the failure is logged as one error entry;
    otherwise one info entry is logged. *)
Theorem finalize_never_raises (self : Tracer.t) (verdict : option string)
    (p o : Z) (w : World) :
  let r := Tracer.finalize self verdict p o w in
  let path := Py.path_join (TRACE_DIR w) (Tracer.task_id self +:+ ".jsonl") in
  (exists self', fst r = Returns self')
  /\ match disk w (appends w) with
     | Some e =>
         files (snd r) = files w
         /\ logged (snd r) =
            logged w ++ [(ERROR, "Failed to write trace file " +:+ path +:+ ": "
                                 +:+ Py.str_exn e)]
     | None =>
         logged (snd r) = logged w ++ [(INFO, "Trace saved to " +:+ path)]
     end.
Proof.
  cbv zeta. rewrite finalize_eq. split; [eexists; reflexivity|].
  destruct (disk w (appends w)); cbn; auto.
Qed.

(** *** Token totals *)

Lemma states_length (uses : list use) :
  forall (self : Tracer.t) (w : World),
    List.length (states self uses w) = List.length uses.
Proof.
  induction uses as [|u uses IH]; intros self w; [reflexivity|].
  destruct u as [msg|verdict p o]; cbn [states].
  - cbn. now rewrite IH.
  - rewrite finalize_eq. cbn. now rewrite IH.
Qed.

Lemma states_step (uses : list use) :
  forall (self : Tracer.t) (w : World) (i : nat) (a b : Tracer.t) (u : use),
    (self :: states self uses w) !! i = Some a ->
    uses !! i = Some u ->
    (self :: states self uses w) !! S i = Some b ->
    prompt_cost b = prompt_cost a + prompt_tokens_of u
    /\ output_cost b = output_cost a + output_tokens_of u.
Proof.
  induction uses as [|u0 uses IH]; intros self w i a b u Ha Hu Hb.
  - destruct i; discriminate Hu.
  - destruct i as [|i].
    + cbn in Ha, Hu. injection Ha as <-. injection Hu as <-.
      destruct u0 as [msg|verdict p o]; cbn [states] in Hb.
      * cbn in Hb. injection Hb as <-.
        unfold prompt_cost, output_cost. cbn. lia.
      * rewrite finalize_eq in Hb. cbn in Hb. injection Hb as <-.
        unfold prompt_cost, output_cost. cbn. lia.
    + cbn [lookup list_lookup] in Hu.
      destruct u0 as [msg|verdict p o]; cbn [states] in Ha, Hb.
      * eapply IH; eauto.
      * rewrite finalize_eq in Ha, Hb. eapply IH; eauto.
Qed.

(** C7: the two token totals of a tracer start at zero; under any sequence
    of uses whose [finalize] calls carry non-negative counts, every use
    happens, each [finalize] adds its counts to the totals ([log] adds
    nothing), and from each state to the next the totals do not decrease. *)
Theorem token_totals_accumulate (task_id : string) (uses : list use)
    (w : World) :
  Forall nonnegative uses ->
  exists self w',
    Tracer.__init__ task_id w = (Returns self, w')
    /\ prompt_cost self = 0 /\ output_cost self = 0
    /\ List.length (states self uses w') = List.length uses
    /\ forall (i : nat) (a b : Tracer.t) (u : use),
         (self :: states self uses w') !! i = Some a ->
         uses !! i = Some u ->
         (self :: states self uses w') !! S i = Some b ->
         prompt_cost b = prompt_cost a + prompt_tokens_of u
         /\ output_cost b = output_cost a + output_tokens_of u
         /\ prompt_cost a <= prompt_cost b
         /\ output_cost a <= output_cost b.
Proof.
  intros Hnn. rewrite init_eq. do 2 eexists. split; [reflexivity|].
  split; [reflexivity|]. split; [reflexivity|].
  split; [apply states_length|].
  intros i a b u Ha Hu Hb.
  destruct (states_step _ _ _ _ _ _ _ Ha Hu Hb) as [Hp Ho].
  assert (Hu' : nonnegative u).
  { rewrite Forall_forall in Hnn. apply Hnn.
    eapply list_elem_of_lookup_2; eauto. }
  destruct u as [msg|verdict p o]; cbn in *; lia.
Qed.

(** On a fresh tracer, three [finalize] calls with a [log] in between take
    the prompt total through 5, 5, 12 and 12. *)
Lemma token_totals_accumulate_witness :
  exists self w',
    Tracer.__init__ "t1" (scripted [] []) = (Returns self, w')
    /\ map prompt_cost (states self sample_uses w') = [5; 5; 12; 12]
    /\ forall (i : nat) (a b : Tracer.t),
         (self :: states self sample_uses w') !! i = Some a ->
         (self :: states self sample_uses w') !! S i = Some b ->
         prompt_cost a <= prompt_cost b.
Proof.
  destruct (token_totals_accumulate "t1" sample_uses (scripted [] []))
    as (self & w' & Hinit & _ & _ & Hlen & Hstep).
  - repeat constructor; cbn; lia.
  - exists self, w'. split; [exact Hinit|].
    rewrite init_eq in Hinit. injection Hinit as <- <-.
    split; [vm_compute; reflexivity|].
    intros i a b Ha Hb.
    destruct (lookup_lt_is_Some_2 sample_uses i) as [u Hu].
    { apply lookup_lt_Some in Hb. rewrite length_cons, Hlen in Hb. lia. }
    destruct (Hstep i a b u Ha Hu Hb) as (_ & _ & Hle & _). exact Hle.
Defined.

(** *** A write that fails *)



(** ** The retry loop *)

Lemma set_logged_same (w : World) : set_logged (logged w) w = w.
Proof. destruct w; reflexivity. Qed.

Lemma for_each_debug {A} (f : A -> string) (l : list A) :
  forall w : World,
    for_each l (fun x => logger.debug (f x)) w =
    (Returns tt, set_logged (logged w ++ map (fun x => (DEBUG, f x)) l) w).
Proof.
  induction l as [|x l IH]; intros w.
  - cbn. rewrite app_nil_r, set_logged_same. reflexivity.
  - cbn [for_each]. unfold bind at 1.
    unfold logger.debug at 1, logger.emit. rewrite IH.
    cbn. rewrite <- app_assoc. reflexivity.
Qed.

Lemma entries_app (lv : Level) (l : list (Level * string)) (w : World) :
  entries lv (set_logged (logged w ++ l) w) =
  (entries lv w
   + List.length (List.filter (fun e => bool_decide (fst e = lv)) l))%nat.
Proof.
  unfold entries. cbn. now rewrite List.filter_app, length_app.
Qed.

Lemma no_error_in_debug {A} (f : A -> string) (l : list A) :
  List.filter (fun e => bool_decide (fst e = ERROR))
    (map (fun x => (DEBUG, f x)) l) = [].
Proof. induction l; cbn; auto. Qed.

Lemma no_error_in_info (msg : string) :
  List.filter (fun e => bool_decide (fst e = ERROR)) [(INFO, msg)] = [].
Proof. reflexivity. Qed.

(** One attempt makes one model call, logs no error, and returns or raises
    as the provider does. *)
Lemma attempt_run (self : AgentBase.t) (messages : Prompt) (w : World) :
  exists w',
    AgentBase.attempt self messages w =
    (match provider w (llm_calls w) with
     | Returns reply => Returns (fst reply)
     | Raises e => Raises e
     end, w')
    /\ provider w' = provider w
    /\ sent w' = sent w ++ [messages]
    /\ entries ERROR w' = entries ERROR w.
Proof.
  unfold AgentBase.attempt, llm_calls.
  destruct (AgentBase.verbose self).
  - unfold bind at 1. unfold bind at 1.
    unfold logger.info at 1, logger.emit at 1.
    rewrite for_each_debug.
    unfold bind at 1. unfold llm_call at 1.
    cbn [sent set_logged set_sent provider logged].
    destruct (provider w (List.length (sent w))) as [reply|e].
    + eexists. split; [reflexivity|].
      cbn. unfold entries. cbn.
      rewrite !List.filter_app, !length_app, no_error_in_debug,
        !no_error_in_info. cbn.
      repeat split; lia.
    + eexists. split; [reflexivity|].
      cbn. unfold entries. cbn.
      rewrite !List.filter_app, !length_app, no_error_in_debug,
        !no_error_in_info. cbn.
      repeat split; lia.
  - unfold bind, ret, llm_call.
    destruct (provider w (List.length (sent w))) as [reply|e];
      (eexists; split; [reflexivity|]); cbn; auto.
Qed.

Lemma error_run (msg : string) (w : World) :
  let w' := snd (logger.error msg w) in
  provider w' = provider w
  /\ sent w' = sent w
  /\ entries ERROR w' = S (entries ERROR w).
Proof.
  cbn. unfold entries. cbn.
  rewrite List.filter_app, length_app.
  change (List.filter _ [(ERROR, msg)]) with [(ERROR, msg)].
  cbn. repeat split; lia.
Qed.



(** [k] failures followed by a success, within the budget. *)
Lemma while_retries_success (self : AgentBase.t) (messages : Prompt) :
  forall (k fuel : nat) (retries : Z) (w : World) (text : string)
         (u : gmap string Z),
    (k < fuel)%nat ->
    retries + Z.of_nat k < AgentBase.max_retries self ->
    (forall j, (j < k)%nat -> fails (outcome w j)) ->
    outcome w k = Returns (text, u) ->
    exists w',
      AgentBase.while_retries fuel self messages retries w
      = Some (Returns text, w')
      /\ llm_calls w' = (llm_calls w + S k)%nat
      /\ entries ERROR w' = (entries ERROR w + k)%nat.
Proof.
  induction k as [|k IH]; intros fuel retries w text u Hfuel Hlt Hfail Hok.
  - destruct fuel as [|fuel]; [lia|]. cbn [AgentBase.while_retries].
    destruct (Z.ltb_spec retries (AgentBase.max_retries self)); [|lia].
    destruct (attempt_run self messages w) as (w' & -> & _ & Hs & He).
    unfold outcome in Hok. rewrite Nat.add_0_r in Hok. rewrite Hok.
    exists w'. split; [reflexivity|].
    unfold llm_calls. rewrite Hs, length_app. cbn. split; lia.
  - destruct fuel as [|fuel]; [lia|]. cbn [AgentBase.while_retries].
    destruct (Z.ltb_spec retries (AgentBase.max_retries self)); [|lia].
    destruct (attempt_run self messages w) as (w' & -> & Hp & Hs & He).
    destruct (Hfail 0%nat ltac:(lia)) as [e He0].
    unfold outcome in He0. rewrite Nat.add_0_r in He0. rewrite He0.
    pose proof (error_run (AgentBase.error_entry self e (retries + 1)) w')
      as (Hp' & Hs' & He').
    set (w'' := snd (logger.error _ w')) in *.
    assert (Hcalls : llm_calls w'' = S (llm_calls w)).
    { unfold llm_calls. rewrite Hs', Hs, length_app. cbn. lia. }
    destruct (IH fuel (retries + 1) w'' text u) as (w3 & Hrun & Hc & Hn).
    + lia.
    + lia.
    + intros j Hj. unfold outcome. rewrite Hp', Hp, Hcalls.
      replace (S (llm_calls w) + j)%nat with (llm_calls w + S j)%nat by lia.
      apply Hfail. lia.
    + unfold outcome. rewrite Hp', Hp, Hcalls.
      replace (S (llm_calls w) + k)%nat with (llm_calls w + S k)%nat by lia.
      exact Hok.
    + exists w3. split; [exact Hrun|]. split; lia.
Qed.

(** Failures up to the end of the budget. *)
Lemma while_retries_exhausted (self : AgentBase.t) (messages : Prompt) :
  forall (n fuel : nat) (retries : Z) (w : World),
    (n < fuel)%nat ->
    retries + Z.of_nat n = AgentBase.max_retries self ->
    (forall j, (j < n)%nat -> fails (outcome w j)) ->
    exists w',
      AgentBase.while_retries fuel self messages retries w
      = Some (Raises (AgentBase.failure self), w')
      /\ llm_calls w' = (llm_calls w + n)%nat
      /\ entries ERROR w' = (entries ERROR w + n)%nat.
Proof.
  induction n as [|n IH]; intros fuel retries w Hfuel Heq Hfail.
  - destruct fuel as [|fuel]; [lia|]. cbn [AgentBase.while_retries].
    destruct (Z.ltb_spec retries (AgentBase.max_retries self)); [lia|].
    exists w. split; [reflexivity|]. split; lia.
  - destruct fuel as [|fuel]; [lia|]. cbn [AgentBase.while_retries].
    destruct (Z.ltb_spec retries (AgentBase.max_retries self)); [|lia].
    destruct (attempt_run self messages w) as (w' & -> & Hp & Hs & He).
    destruct (Hfail 0%nat ltac:(lia)) as [e He0].
    unfold outcome in He0. rewrite Nat.add_0_r in He0. rewrite He0.
    pose proof (error_run (AgentBase.error_entry self e (retries + 1)) w')
      as (Hp' & Hs' & He').
    set (w'' := snd (logger.error _ w')) in *.
    assert (Hcalls : llm_calls w'' = S (llm_calls w)).
    { unfold llm_calls. rewrite Hs', Hs, length_app. cbn. lia. }
    destruct (IH fuel (retries + 1) w'') as (w3 & Hrun & Hc & Hn).
    + lia.
    + lia.
    + intros j Hj. unfold outcome. rewrite Hp', Hp, Hcalls.
      replace (S (llm_calls w) + j)%nat with (llm_calls w + S j)%nat by lia.
      apply Hfail. lia.
    + exists w3. split; [exact Hrun|]. split; lia.
Qed.

(** C9: for an agent whose [max_retries] is 0 the loop body never runs:
    [call_openai] raises the terminal failure, which names the agent and 0
    attempts, and leaves the world as it found it: no prompt reached the
    model and nothing was logged. *)
Theorem zero_budget_never_calls_model (self : AgentBase.t)
    (messages : Prompt) (temperature : Q) (max_tokens : Z) (w : World) :
  AgentBase.max_retries self = 0 ->
  exists w',
    AgentBase.call_openai self messages temperature max_tokens w
    = Some (Raises (Py.Exception
                      ("[" +:+ AgentBase.name self
                       +:+ "] Failed to get response after 0 attempts")),
            w')
    /\ w' = w
    /\ llm_calls w' = llm_calls w
    /\ logged w' = logged w.
Proof.
  intros H0. exists w.
  unfold AgentBase.call_openai. rewrite H0.
  cbn [Z.to_nat AgentBase.while_retries]. rewrite H0.
  unfold AgentBase.failure. rewrite H0.
  repeat split; reflexivity.
Qed.

(** The summarize tool built with a budget of 0 fails at once, on a world
    whose provider would have answered. *)
Lemma zero_budget_never_calls_model_witness :
  exists w',
    AgentBase.call_openai (AgentBase.__init__ "SummarizeTool" 0 true)
      [chat "user" "hi"] (7 # 10) 150 (scripted [Returns ("ok", usage 4 2)] [])
    = Some (Raises (Py.Exception
                      "[SummarizeTool] Failed to get response after 0 attempts"),
            w')
    /\ llm_calls w' = 0%nat
    /\ logged w' = [].
Proof.
  destruct (zero_budget_never_calls_model
              (AgentBase.__init__ "SummarizeTool" 0 true)
              [chat "user" "hi"] (7 # 10) 150
              (scripted [Returns ("ok", usage 4 2)] []) eq_refl)
    as (w' & Hrun & -> & _ & _).
  eexists. split; [exact Hrun|]. split; reflexivity.
Defined.

(** C5: with a budget of [N >= 1] attempts, [call_openai]
    - returns the text of the first successful model call, having made no
      call after it and logged one error entry per failure before it;
    - raises, when the first [N] calls all fail, the error that names the
      agent and [N], after [N] calls and [N] error entries;
    - with [N = 3] and a model that fails twice and then succeeds, returns
      the third call's text after exactly two error entries. *)
Theorem call_openai_retries (self : AgentBase.t) (messages : Prompt)
    (temperature : Q) (max_tokens : Z) (w : World) :
  1 <= AgentBase.max_retries self ->
  (forall (k : nat) (text : string) (u : gmap string Z),
      Z.of_nat k < AgentBase.max_retries self ->
      (forall j, (j < k)%nat -> fails (outcome w j)) ->
      outcome w k = Returns (text, u) ->
      exists w',
        AgentBase.call_openai self messages temperature max_tokens w
        = Some (Returns text, w')
        /\ llm_calls w' = (llm_calls w + S k)%nat
        /\ entries ERROR w' = (entries ERROR w + k)%nat)
  /\ ((forall j, Z.of_nat j < AgentBase.max_retries self -> fails (outcome w j)) ->
      exists w',
        AgentBase.call_openai self messages temperature max_tokens w
        = Some (Raises (Py.Exception
                          ("[" +:+ AgentBase.name self
                           +:+ "] Failed to get response after "
                           +:+ Py.str_int (AgentBase.max_retries self)
                           +:+ " attempts")),
                w')
        /\ Z.of_nat (llm_calls w') =
           Z.of_nat (llm_calls w) + AgentBase.max_retries self
        /\ Z.of_nat (entries ERROR w') =
           Z.of_nat (entries ERROR w) + AgentBase.max_retries self)
  /\ (AgentBase.max_retries self = 3 ->
      fails (outcome w 0) -> fails (outcome w 1) ->
      forall (text : string) (u : gmap string Z),
        outcome w 2 = Returns (text, u) ->
        exists w',
          AgentBase.call_openai self messages temperature max_tokens w
          = Some (Returns text, w')
          /\ llm_calls w' = (llm_calls w + 3)%nat
          /\ entries ERROR w' = (entries ERROR w + 2)%nat).
Proof.
  intros HN.
  assert (Hfirst :
    forall (k : nat) (text : string) (u : gmap string Z),
      Z.of_nat k < AgentBase.max_retries self ->
      (forall j, (j < k)%nat -> fails (outcome w j)) ->
      outcome w k = Returns (text, u) ->
      exists w',
        AgentBase.call_openai self messages temperature max_tokens w
        = Some (Returns text, w')
        /\ llm_calls w' = (llm_calls w + S k)%nat
        /\ entries ERROR w' = (entries ERROR w + k)%nat).
  { intros k text u Hk Hfail Hok. unfold AgentBase.call_openai.
    eapply while_retries_success; eauto; lia. }
  split; [exact Hfirst|]. split.
  - intros Hfail. unfold AgentBase.call_openai.
    destruct (while_retries_exhausted self messages
                (Z.to_nat (AgentBase.max_retries self))
                (S (Z.to_nat (AgentBase.max_retries self))) 0 w)
      as (w' & Hrun & Hc & He).
    + lia.
    + lia.
    + intros j Hj. apply Hfail. lia.
    + exists w'. split; [exact Hrun|]. split; lia.
  - intros H3 H0 H1 text u H2.
    destruct (Hfirst 2%nat text u) as (w' & Hrun & Hc & He).
    + lia.
    + intros j Hj. destruct j as [|[|j]]; [exact H0 | exact H1 | lia].
    + exact H2.
    + exists w'. split; [exact Hrun|]. split; lia.
Qed.

(** An agent with three attempts, a provider that fails twice and then
    answers: the answer is returned, after three calls and two error
    entries. *)
Lemma call_openai_retries_witness :
  exists w',
    AgentBase.call_openai (AgentBase.__init__ "Writer" 3 true)
      [chat "user" "hi"] (7 # 10) 150
      (scripted [Raises (Py.Exception "timeout");
                 Raises (Py.Exception "rate limit");
                 Returns ("ok", usage 4 2)] [])
    = Some (Returns "ok", w')
    /\ llm_calls w' = 3%nat
    /\ entries ERROR w' = 2%nat.
Proof.
  destruct (call_openai_retries (AgentBase.__init__ "Writer" 3 true)
              [chat "user" "hi"] (7 # 10) 150
              (scripted [Raises (Py.Exception "timeout");
                         Raises (Py.Exception "rate limit");
                         Returns ("ok", usage 4 2)] []))
    as (_ & _ & H3).
  - cbn. lia.
  - apply (H3 eq_refl (ex_intro _ _ eq_refl) (ex_intro _ _ eq_refl)
             "ok" (usage 4 2) eq_refl).
Defined.

(** ** The critique-and-revise loop *)

(** *** The search for the marker *)

Lemma append_cons (c : ascii) (a b : string) :
  String c a +:+ b = String c (a +:+ b).
Proof. reflexivity. Qed.

Lemma lower_cons (c : ascii) (s : string) :
  Py.lower (String c s) = String (Py.lower_char c) (Py.lower s).
Proof. reflexivity. Qed.

Lemma contains_eq (hay needle : string) :
  Py.contains hay needle =
  Py.startswith hay needle
  || match hay with
     | EmptyString => false
     | String _ hay' => Py.contains hay' needle
     end.
Proof. destruct hay; reflexivity. Qed.

Lemma lower_app (a b : string) :
  Py.lower (a +:+ b) = Py.lower a +:+ Py.lower b.
Proof.
  induction a as [|c a IH]; [reflexivity|].
  rewrite append_cons, !lower_cons, IH. reflexivity.
Qed.

Lemma lower_char_upper_of (x y : ascii) :
  upper_of x y -> Py.lower_char x = y.
Proof.
  intros [Hy Hx]. unfold Py.lower_char. rewrite Hx.
  replace ((65 <=? nat_of_ascii y - 32)%nat
           && (nat_of_ascii y - 32 <=? 90)%nat) with true.
  2:{ symmetry. apply andb_true_intro. split; apply Nat.leb_le; lia. }
  cbn [orb]. replace (nat_of_ascii y - 32 + 32)%nat with (nat_of_ascii y) by lia.
  apply ascii_nat_embedding.
Qed.

Lemma lower_case_variant (m : string) :
  forall k : string, case_variant m k -> Py.lower k = k -> Py.lower m = k.
Proof.
  induction m as [|x m IH]; intros [|y k] Hv Hk; try (now destruct Hv).
  destruct Hv as [Hxy Hv]. rewrite lower_cons in *.
  injection Hk as Hy Hk.
  f_equal; [|now apply IH].
  destruct Hxy as [->|Hup]; [exact Hy|now apply lower_char_upper_of].
Qed.

Lemma startswith_app (p rest : string) : Py.startswith (p +:+ rest) p = true.
Proof.
  induction p as [|c p IH]; [now destruct rest|].
  rewrite append_cons.
  change (Py.startswith (String c (p +:+ rest)) (String c p))
    with (if ascii_dec c c then Py.startswith (p +:+ rest) p else false).
  destruct (ascii_dec c c); [exact IH|congruence].
Qed.

Lemma contains_app (pre p post : string) :
  Py.contains (pre +:+ p +:+ post) p = true.
Proof.
  induction pre as [|c pre IH].
  - change (EmptyString +:+ p +:+ post) with (p +:+ post).
    rewrite contains_eq, startswith_app. reflexivity.
  - rewrite append_cons, contains_eq, IH. apply orb_true_r.
Qed.

(** A critique that holds the marker in some letter case passes the test
    of the loop. *)
Lemma marker_found (pre m post : string) :
  case_variant m no_revision_marker ->
  Py.contains (Py.lower (pre +:+ m +:+ post)) no_revision_marker = true.
Proof.
  intros Hv. rewrite !lower_app.
  rewrite (lower_case_variant m no_revision_marker Hv) by reflexivity.
  apply contains_app.
Qed.

(** *** Runs of the loop *)

Lemma range_succ (n : Z) : 0 <= n -> range (n + 1) = 0 :: seqZ 1 n.
Proof.
  intros Hn. unfold range. rewrite seqZ_cons by lia.
  f_equal. f_equal; lia.
Qed.

Lemma new_eq (r : Role) (sender content : string) (w : World) :
  APMessage.new r sender content w =
  (Returns {| APMessage.id := fst (factories w (built w));
              APMessage.role := r; APMessage.sender := sender;
              APMessage.content := content; APMessage.tool_name := None;
              APMessage.tool_args := None;
              APMessage.ts := snd (factories w (built w)) |},
   set_built (S (built w)) w).
Proof.
  unfold APMessage.new. destruct (factories w (built w)); reflexivity.
Qed.

(** C6: when the first critique holds the marker ["revise_required": false]
    in some letter case, [reflective_improve] returns the draft it was
    given after that single model call; the tracer was finalized with the
    verdict [pass] and the token counts of that call alone, and its
    exchange holds three messages: the task description from the user, the
    draft from the agent, the critique from the critic. *)
Theorem first_critique_accepts (task_id agent_name task_desc draft : string)
    (max_retries : Z) (w : World) (pre m post : string) (u : gmap string Z) :
  0 <= max_retries ->
  outcome w 0 = Returns (pre +:+ m +:+ post, u) ->
  case_variant m no_revision_marker ->
  exists self w',
    reflective_improve task_id agent_name task_desc draft max_retries w
    = (Returns (draft, self), w')
    /\ APExchange.verdict (Tracer.exchange self) = Some "pass"
    /\ prompt_cost self = Py.get0 u "prompt_tokens"
    /\ output_cost self = Py.get0 u "output_tokens"
    /\ is_Some (latency self)
    /\ List.length (APExchange.messages (Tracer.exchange self)) = 3%nat
    /\ transcript self =
       [(user, "user", task_desc); (agent, agent_name, draft);
        (validator, "critic", pre +:+ m +:+ post)]
    /\ llm_calls w' = S (llm_calls w)
    /\ appends w' = S (appends w).
Proof.
  intros HR Hout Hv.
  unfold reflective_improve. rewrite range_succ by exact HR.
  unfold bind at 1. rewrite init_eq.
  unfold bind at 1. rewrite new_eq.
  unfold bind at 1. rewrite new_eq.
  cbn [reflective_loop].
  unfold bind at 1. unfold llm_call at 1.
  unfold outcome, llm_calls in Hout. rewrite Nat.add_0_r in Hout.
  cbn [sent set_built set_ticks provider]. rewrite Hout.
  unfold bind at 1. rewrite new_eq. cbn [fst snd].
  rewrite (marker_found _ _ _ Hv).
  unfold bind at 1. rewrite finalize_eq. cbv zeta.
  unfold ret. do 2 eexists. split; [reflexivity|].
  split; [reflexivity|].
  split; [unfold prompt_cost; cbn; lia|].
  split; [unfold output_cost; cbn; lia|].
  split; [eexists; reflexivity|].
  split; [reflexivity|].
  split; [reflexivity|].
  cbn [disk appends set_sent set_built set_ticks].
  destruct (disk w (appends w));
    (split; [unfold llm_calls;
             cbn [sent set_logged set_disk set_sent set_built set_ticks];
             rewrite length_app; cbn; lia
            | reflexivity]).
Qed.

(** Task [t1]: the critic answers [{"REVISE_REQUIRED": FALSE}] with 7 and 3
    tokens. *)
Lemma first_critique_accepts_witness :
  exists self w',
    reflective_improve "t1" "Writer" "Summarise the report" "First draft." 1
      (scripted [Returns ("{" +:+ accepts_upper +:+ "}", usage 7 3)] [])
    = (Returns ("First draft.", self), w')
    /\ APExchange.verdict (Tracer.exchange self) = Some "pass"
    /\ prompt_cost self = 7
    /\ output_cost self = 3
    /\ List.length (APExchange.messages (Tracer.exchange self)) = 3%nat.
Proof.
  destruct (first_critique_accepts "t1" "Writer" "Summarise the report"
              "First draft." 1
              (scripted [Returns ("{" +:+ accepts_upper +:+ "}", usage 7 3)] [])
              "{" accepts_upper "}" (usage 7 3))
    as (self & w' & Hrun & Hv & Hp & Ho & _ & Hlen & _).
  - lia.
  - reflexivity.
  - vm_compute.
    repeat split; first [left; reflexivity | right; repeat split; lia].
  - exists self, w'. rewrite Hp, Ho. repeat split; assumption.
Defined.

(** *** Counting the model calls *)

Lemma chat_content (role content : string) :
  chat role content !! "content" = Some (Py.Str content).
Proof.
  unfold chat. rewrite lookup_insert_ne by discriminate.
  apply lookup_singleton_eq.
Qed.

Lemma opens_with_chat (instruction role content : string) (rest : Prompt) :
  opens_with instruction (chat role content :: rest)
  = bool_decide (content = instruction).
Proof.
  unfold opens_with. rewrite chat_content.
  apply bool_decide_ext. split; congruence.
Qed.

Lemma sent_llm_call (p : Prompt) (w : World) :
  sent (snd (llm_call p w)) = sent w ++ [p].
Proof. reflexivity. Qed.

Lemma sent_new (r : Role) (sender content : string) (w : World) :
  sent (snd (APMessage.new r sender content w)) = sent w.
Proof. rewrite new_eq. reflexivity. Qed.

Lemma sent_finalize (self : Tracer.t) (verdict : option string) (p o : Z)
    (w : World) :
  sent (snd (Tracer.finalize self verdict p o w)) = sent w.
Proof. rewrite finalize_eq. cbn [snd]. destruct (disk w (appends w)); reflexivity. Qed.

Lemma calls_after_critique (w w' : World) (p2 : gmap string Py.any) :
  sent w' = sent w ++ [[chat "system" CRITIQUE_PROMPT; p2]] ->
  critique_calls w' = S (critique_calls w)
  /\ revision_calls w' = revision_calls w.
Proof.
  intros Hs. unfold critique_calls, revision_calls. rewrite Hs.
  rewrite !List.filter_app, !length_app. cbn [List.filter].
  rewrite !opens_with_chat.
  rewrite (bool_decide_eq_true_2 _ eq_refl).
  rewrite bool_decide_eq_false_2 by (vm_compute; discriminate).
  cbn. lia.
Qed.

Lemma calls_after_revision (w w' : World) (p2 : gmap string Py.any) :
  sent w' = sent w ++ [[chat "system" REVISION_PROMPT; p2]] ->
  critique_calls w' = critique_calls w
  /\ revision_calls w' = S (revision_calls w).
Proof.
  intros Hs. unfold critique_calls, revision_calls. rewrite Hs.
  rewrite !List.filter_app, !length_app. cbn [List.filter].
  rewrite !opens_with_chat.
  rewrite (bool_decide_eq_true_2 _ eq_refl).
  rewrite bool_decide_eq_false_2 by (vm_compute; discriminate).
  cbn. lia.
Qed.

Lemma calls_same (w w' : World) :
  sent w' = sent w ->
  critique_calls w' = critique_calls w /\ revision_calls w' = revision_calls w.
Proof. intros Hs. unfold critique_calls, revision_calls. now rewrite Hs. Qed.

(** Runs one monadic step of the goal: the first [bind] is opened, the call
    at its head is named, and what the call did to [sent] is recorded. *)
Ltac step_call :=
  unfold bind at 1;
  match goal with
  | |- context [llm_call ?p ?w] =>
      let H := fresh "Hsent" in
      pose proof (sent_llm_call p w) as H;
      destruct (llm_call p w) as [[?reply|?e] ?w]; cbn [snd] in H
  | |- context [APMessage.new ?r ?s ?c ?w] =>
      let H := fresh "Hsent" in
      pose proof (sent_new r s c w) as H;
      destruct (APMessage.new r s c w) as [[?msg|?e] ?w]; cbn [snd] in H
  | |- context [Tracer.finalize ?t ?v ?p ?o ?w] =>
      let H := fresh "Hsent" in
      pose proof (sent_finalize t v p o w) as H;
      destruct (Tracer.finalize t v p o w) as [[?self|?e] ?w]; cbn [snd] in H
  end.

Ltac count_calls :=
  repeat match goal with
    | H : sent _ = sent _ ++ [[chat "system" CRITIQUE_PROMPT; _]] |- _ =>
        apply calls_after_critique in H; destruct H
    | H : sent _ = sent _ ++ [[chat "system" REVISION_PROMPT; _]] |- _ =>
        apply calls_after_revision in H; destruct H
    | H : sent _ = sent _ |- _ =>
        apply calls_same in H; destruct H
    end.

(** Each iteration makes at most one critique call and at most one
    revision call. *)
Lemma reflective_loop_calls (attempts : list Z) :
  forall (agent_name task_desc : string) (max_retries : Z) (tracer : Tracer.t)
         (draft : string) (w : World) (r : Result (string * Tracer.t))
         (w' : World),
    reflective_loop attempts agent_name task_desc max_retries tracer draft w
    = (r, w') ->
    (critique_calls w' <= critique_calls w + List.length attempts)%nat
    /\ (revision_calls w' <= revision_calls w + List.length attempts)%nat.
Proof.
  induction attempts as [|attempt attempts IH];
    intros agent_name task_desc max_retries tracer draft w r w'.
  - cbn. intros [= <- <-]. lia.
  - cbn [reflective_loop List.length].
    step_call; [|count_calls; intros [= <- <-]; lia].
    step_call; [|count_calls; intros [= <- <-]; lia].
    destruct (Py.contains _ _).
    + step_call; count_calls; intros [= <- <-]; lia.
    + step_call; [|count_calls; intros [= <- <-]; lia].
      step_call; [|count_calls; intros [= <- <-]; lia].
      destruct (attempt =? max_retries)%Z.
      * step_call; count_calls; intros [= <- <-]; lia.
      * count_calls. intros Hrun. apply IH in Hrun. lia.
Qed.

Lemma length_range (n : Z) : 0 <= n -> List.length (range n) = Z.to_nat n.
Proof. intros Hn. unfold range. apply length_seqZ. Qed.

(** What the code guarantees on the number of model calls: for a budget
    [R >= 0], at most [R + 1] critique calls and at most [R + 1] revision
    calls. *)
Lemma reflective_improve_calls (task_id agent_name task_desc draft : string)
    (max_retries : Z) (w : World) :
  0 <= max_retries ->
  let w' :=
    snd (reflective_improve task_id agent_name task_desc draft max_retries w) in
  (critique_calls w' <= critique_calls w + Z.to_nat max_retries + 1)%nat
  /\ (revision_calls w' <= revision_calls w + Z.to_nat max_retries + 1)%nat.
Proof.
  intros HR. cbv zeta.
  destruct (reflective_improve _ _ _ _ _ w) as [r w'] eqn:Hrun. cbn [snd].
  revert Hrun. unfold reflective_improve.
  unfold bind at 1. rewrite init_eq.
  unfold bind at 1. rewrite new_eq.
  unfold bind at 1. rewrite new_eq.
  intros Hrun. apply reflective_loop_calls in Hrun.
  rewrite length_range in Hrun by lia.
  replace (Z.to_nat (max_retries + 1)) with (Z.to_nat max_retries + 1)%nat
    in Hrun by lia.
  unfold critique_calls, revision_calls in *.
  cbn [sent set_built set_ticks] in Hrun. lia.
Qed.

(** C1, at the input where it fails: with [max_retries = 0] and a critique
    that asks for a revision, [reflective_improve] makes one critique call
    and one revision call, and returns the revision. *)
Theorem zero_budget_still_revises :
  let r :=
    reflective_improve "t2" "Writer" "Summarise the report" "First draft." 0
      (scripted [Returns (asks_revision, usage 7 3);
                 Returns ("Second draft.", usage 10 20)] []) in
  (exists self, fst r = Returns ("Second draft.", self)
                /\ APExchange.verdict (Tracer.exchange self)
                   = Some "pass_after_revise")
  /\ critique_calls (snd r) = 1%nat
  /\ revision_calls (snd r) = 1%nat.
Proof.
  cbv zeta. split; [eexists; split; vm_compute; reflexivity|].
  split; vm_compute; reflexivity.
Qed.

(** ** The round trip of a record *)

(** *** Strings *)







(** *** Integers *)



Lemma str_int_eq (n : Z) :
  exists d, d <> Decimal.Nil
            /\ (Py.str_int n = NilEmpty.string_of_uint d
                 /\ Z.of_int (Decimal.Pos d) = n
                \/ Py.str_int n = String "-" (NilEmpty.string_of_uint d)
                   /\ Z.of_int (Decimal.Neg d) = n).
Proof.
  unfold Py.str_int. destruct n as [|p|p].
  - exists (Decimal.D0 Decimal.Nil). split; [discriminate|]. left. split; reflexivity.
  - exists (Pos.to_uint p). split; [apply Unsigned.to_uint_nonnil|]. left.
    split; [|apply (DecimalZ.of_to (Z.pos p))].
    cbn. pose proof (Unsigned.to_uint_nonnil p). now destruct (Pos.to_uint p).
  - exists (Pos.to_uint p). split; [apply Unsigned.to_uint_nonnil|]. right.
    split; [|apply (DecimalZ.of_to (Z.neg p))].
    cbn. pose proof (Unsigned.to_uint_nonnil p). now destruct (Pos.to_uint p).
Qed.



(** *** Values *)

(** Induction on a value, with the hypothesis on every element of a list,
    of a tuple and of a dict. *)
Lemma value_ind' (P : json.value -> Prop)
    (HNone : P json.VNone)
    (HBool : forall b, P (json.VBool b))
    (HInt : forall n, P (json.VInt n))
    (HStr : forall s, P (json.VStr s))
    (HList : forall l, Forall P l -> P (json.VList l))
    (HTuple : forall l, Forall P l -> P (json.VTuple l))
    (HDict : forall d, Forall (fun kv => P (snd kv)) d -> P (json.VDict d)) :
  forall v, P v.
Proof.
  fix IH 1. intros [ |b|n|s|l|l|d].
  - exact HNone.
  - apply HBool.
  - apply HInt.
  - apply HStr.
  - apply HList. induction l as [|x l IHl]; constructor; [apply IH|exact IHl].
  - apply HTuple. induction l as [|x l IHl]; constructor; [apply IH|exact IHl].
  - apply HDict. induction d as [|[k x] d IHd]; constructor;
      [apply IH|exact IHd].
Qed.
























(** *** Enough fuel *)





(** *** Exchanges *)











(** * More properties of the code *)

(** ** The life of a tracer *)

Lemma run_keeps (uses : list use) :
  forall (self : Tracer.t) (w : World),
    let self' := fst (run self uses w) in
    APExchange.messages (Tracer.exchange self')
    = APExchange.messages (Tracer.exchange self) ++ logged_messages uses
    /\ Tracer.task_id self' = Tracer.task_id self
    /\ APExchange.task_id (Tracer.exchange self')
       = APExchange.task_id (Tracer.exchange self)
    /\ Tracer._start self' = Tracer._start self.
Proof.
  induction uses as [|[msg|verdict p o] uses IH]; intros self w; cbv zeta.
  - cbn. now rewrite app_nil_r.
  - cbn [run logged_messages].
    destruct (IH (Tracer.log self msg) w) as (Hm & Ht & He & Hs).
    rewrite Hm, Ht, He, Hs. cbn. rewrite <- app_assoc. auto.
  - cbn [run logged_messages]. rewrite finalize_eq.
    match goal with
    | |- context [run ?s uses ?w'] =>
        destruct (IH s w') as (Hm & Ht & He & Hs)
    end.
    rewrite Hm, Ht, He, Hs. cbn. auto.
Qed.

(** X1: the exchange keeps every logged message, in the order of the
    [log] calls, after the messages it already held; [finalize] neither
    drops nor reorders nor adds a message, and no use changes the task id or
    the start instant. *)
Theorem messages_in_log_order (self : Tracer.t) (uses : list use)
    (w : World) :
  let self' := fst (run self uses w) in
  APExchange.messages (Tracer.exchange self')
  = APExchange.messages (Tracer.exchange self) ++ logged_messages uses
  /\ Tracer.task_id self' = Tracer.task_id self
  /\ APExchange.task_id (Tracer.exchange self')
     = APExchange.task_id (Tracer.exchange self)
  /\ Tracer._start self' = Tracer._start self.
Proof. apply run_keeps. Qed.

(** X2: the verdict of the exchange is the one given by the last
    [finalize] call that gave one; a [finalize] without a verdict and a
    [log] leave it as it was. *)
Theorem verdict_is_last_given (uses : list use) :
  forall (self : Tracer.t) (w : World),
    APExchange.verdict (Tracer.exchange (fst (run self uses w)))
    = last_verdict (APExchange.verdict (Tracer.exchange self)) uses.
Proof.
  induction uses as [|[msg|verdict p o] uses IH]; intros self w.
  - reflexivity.
  - cbn [run last_verdict]. now rewrite IH.
  - cbn [run last_verdict]. rewrite finalize_eq, IH.
    destruct verdict; reflexivity.
Qed.

(** *** The trace file *)

Lemma finalize_files (self : Tracer.t) (verdict : option string) (p o : Z)
    (w : World) :
  let r := Tracer.finalize self verdict p o w in
  appends (snd r) = S (appends w)
  /\ TRACE_DIR (snd r) = TRACE_DIR w
  /\ disk (snd r) = disk w
  /\ (forall q, q <> trace_path self w -> files (snd r) !! q = files w !! q)
  /\ match disk w (appends w) with
     | None =>
         exists self',
           fst r = Returns self'
           /\ files (snd r) !! trace_path self w
              = Some (content_of w (trace_path self w)
                      +:+ record (Tracer.exchange self'))
     | Some _ => files (snd r) = files w
     end.
Proof.
  cbv zeta. rewrite finalize_eq. unfold trace_path, content_of, record.
  destruct (disk w (appends w)) as [e|]; cbn.
  - repeat split; auto.
  - repeat split; auto.
    + intros q Hq. now rewrite lookup_insert_ne by congruence.
    + eexists. split; [reflexivity|]. now rewrite lookup_insert_eq.
Qed.



(** *** The text of a record *)

Lemma printable_app (a b : string) :
  printable (a +:+ b) = printable a && printable b.
Proof.
  induction a as [|c a IH]; [reflexivity|].
  rewrite append_cons. cbn [printable]. rewrite IH. now rewrite andb_assoc.
Qed.

Lemma printable_escape_char (c : ascii) :
  printable (json.escape_char c) = true.
Proof. destruct c as [[|] [|] [|] [|] [|] [|] [|] [|]]; reflexivity. Qed.

Lemma printable_escape (s : string) : printable (json.escape s) = true.
Proof.
  induction s as [|c s IH]; [reflexivity|].
  cbn [json.escape]. now rewrite printable_app, printable_escape_char, IH.
Qed.

Lemma printable_dumps_str (s : string) : printable (json.dumps_str s) = true.
Proof.
  unfold json.dumps_str. now rewrite !printable_app, printable_escape.
Qed.

Lemma printable_uint (d : Decimal.uint) :
  printable (NilEmpty.string_of_uint d) = true.
Proof. induction d; cbn [NilEmpty.string_of_uint printable]; auto. Qed.

Lemma printable_str_int (n : Z) : printable (Py.str_int n) = true.
Proof.
  destruct (str_int_eq n) as (d & _ & [[-> _]|[-> _]]).
  - apply printable_uint.
  - cbn [printable]. apply printable_uint.
Qed.

Lemma printable_concat {A} (txt : A -> string) (l : list A) :
  Forall (fun a => printable (txt a) = true) l ->
  printable (String.concat ", " (map txt l)) = true.
Proof.
  induction l as [|x l IH]; intros H; [reflexivity|].
  apply Forall_cons in H as [Hx H]. specialize (IH H).
  destruct l as [|y l]; [exact Hx|].
  change (String.concat ", " (map txt (x :: y :: l)))
    with (txt x +:+ ", " +:+ String.concat ", " (map txt (y :: l))).
  now rewrite !printable_app, Hx, IH.
Qed.

Lemma printable_dumps (v : json.value) : printable (json.dumps v) = true.
Proof.
  induction v as [ |b|n|s|l IH|l IH|d IH] using value_ind';
    cbn [json.dumps].
  - reflexivity.
  - destruct b; reflexivity.
  - apply printable_str_int.
  - apply printable_dumps_str.
  - now rewrite !printable_app, (printable_concat json.dumps l IH).
  - now rewrite !printable_app, (printable_concat json.dumps l IH).
  - change (map (fun kv => json.dumps_str (fst kv) +:+ ": "
                           +:+ json.dumps (snd kv)) d)
      with (map member_text d).
    rewrite !printable_app, (printable_concat member_text d); [reflexivity|].
    eapply Forall_impl; [exact IH|]. intros kv Hkv. cbv beta in Hkv.
    unfold member_text. now rewrite !printable_app, printable_dumps_str, Hkv.
Qed.

(** X5: the record of an exchange is one line of printable ASCII: its
    text up to the final line feed holds no line feed, no control character
    and no character above U+007E, whatever the messages contain. *)
Theorem record_is_one_ascii_line (ex : APExchange.t) :
  exists body,
    record ex = body +:+ Py.nl /\ printable body = true.
Proof.
  exists (json.dumps (APExchange.dict ex)). split; [reflexivity|].
  apply printable_dumps.
Qed.

(** *** Where the record goes *)

Lemma startswith_nil (s : string) : Py.startswith s EmptyString = true.
Proof. destruct s; reflexivity. Qed.

Lemma path_of_absolute (dir rest : string) :
  Py.path_join dir (String "/" rest +:+ ".jsonl")
  = String "/" rest +:+ ".jsonl".
Proof.
  unfold Py.path_join. rewrite append_cons. cbn [Py.startswith].
  destruct (ascii_dec "/" "/"); [|congruence].
  now rewrite startswith_nil.
Qed.

Lemma path_of_relative (dir id : string) :
  Py.startswith id "/" = false ->
  dir <> EmptyString ->
  Py.endswith_slash dir = false ->
  Py.path_join dir (id +:+ ".jsonl") = dir +:+ "/" +:+ id +:+ ".jsonl".
Proof.
  intros Hid Hdir Hslash. unfold Py.path_join.
  assert (Hstart : Py.startswith (id +:+ ".jsonl") "/" = false).
  { destruct id as [|c id]; [reflexivity|]. rewrite append_cons.
    cbn [Py.startswith] in *. destruct (ascii_dec "/" c); [|reflexivity].
    now rewrite startswith_nil in Hid. }
  rewrite Hstart, Hslash.
  destruct dir; [congruence|reflexivity].
Qed.

(** X6: a task id that starts with a slash takes the record out of the
    trace directory: the write goes to the task id followed by [.jsonl],
    whatever [TRACE_DIR] is. Any other task id, the empty one included, is
    appended as it is to the directory and a slash (for a directory name
    that is not empty and does not end with a slash). *)
Theorem record_path (self : Tracer.t) (verdict : option string) (p o : Z)
    (w : World) :
  disk w (appends w) = None ->
  exists self' w',
    Tracer.finalize self verdict p o w = (Returns self', w')
    /\ (forall rest,
          Tracer.task_id self = String "/" rest ->
          files w' !! (Tracer.task_id self +:+ ".jsonl")
          = Some (content_of w (Tracer.task_id self +:+ ".jsonl")
                  +:+ record (Tracer.exchange self')))
    /\ (Py.startswith (Tracer.task_id self) "/" = false ->
        TRACE_DIR w <> EmptyString ->
        Py.endswith_slash (TRACE_DIR w) = false ->
        files w' !! (TRACE_DIR w +:+ "/" +:+ Tracer.task_id self +:+ ".jsonl")
        = Some (content_of w (TRACE_DIR w +:+ "/" +:+ Tracer.task_id self
                              +:+ ".jsonl")
                +:+ record (Tracer.exchange self'))).
Proof.
  intros Hdisk.
  destruct (finalize_files self verdict p o w) as (_ & _ & _ & _ & Hp).
  rewrite Hdisk in Hp. destruct Hp as (self' & Hret & Hp).
  destruct (Tracer.finalize self verdict p o w) as [r w'].
  cbn [fst snd] in *. subst r. exists self', w'.
  split; [reflexivity|]. unfold trace_path in Hp. split.
  - intros rest Hid. rewrite Hid in *. now rewrite path_of_absolute in Hp.
  - intros Hid Hdir Hslash. now rewrite path_of_relative in Hp by assumption.
Qed.

(** A tracer whose task id is [/tmp/x], under the directory [traces]. *)
Lemma record_path_witness :
  exists self' w',
    Tracer.finalize
      {| Tracer.task_id := "/tmp/x"; Tracer._start := 0;
         Tracer.exchange := APExchange.new "/tmp/x" [] |}
      None 0 0 (scripted [] [])
    = (Returns self', w')
    /\ files w' !! "/tmp/x.jsonl" = Some (record (Tracer.exchange self')).
Proof.
  destruct (record_path
              {| Tracer.task_id := "/tmp/x"; Tracer._start := 0;
                 Tracer.exchange := APExchange.new "/tmp/x" [] |}
              None 0 0 (scripted [] []) eq_refl)
    as (self' & w' & Hrun & Habs & _).
  exists self', w'. split; [exact Hrun|].
  exact (Habs "tmp/x" eq_refl).
Defined.

(** ** More on the critique-and-revise loop *)

Lemma finish_eq {A} (self : Tracer.t) (verdict : option string) (p o : Z)
    (w : World) (k : Tracer.t -> A) :
  (tracer <- Tracer.finalize self verdict p o ;; ret (k tracer)) w
  = (Returns (k (Tracer.stamp self (time_time w (ticks w)) verdict p o)),
     snd (Tracer.finalize self verdict p o w)).
Proof. unfold bind. rewrite finalize_eq. reflexivity. Qed.

(** One iteration of the loop, call by call. *)
Lemma reflective_loop_cons (attempt : Z) (attempts : list Z)
    (agent_name task_desc : string) (max_retries : Z) (tracer : Tracer.t)
    (draft : string) (w : World) :
  reflective_loop (attempt :: attempts) agent_name task_desc max_retries
    tracer draft w
  = let w1 := set_sent (sent w ++ [critic_prompt task_desc draft]) w in
    match provider w (llm_calls w) with
    | Raises e => (Raises e, w1)
    | Returns reply1 =>
        let tracer1 :=
          Tracer.log tracer
            (built_message w1 validator "critic" (fst reply1)) in
        let w2 := set_built (S (built w1)) w1 in
        if Py.contains (Py.lower (fst reply1)) no_revision_marker then
          (Returns (draft,
                    Tracer.stamp tracer1 (time_time w2 (ticks w2))
                      (Some "pass") (Py.get0 (snd reply1) "prompt_tokens")
                      (Py.get0 (snd reply1) "output_tokens")),
           snd (Tracer.finalize tracer1 (Some "pass")
                  (Py.get0 (snd reply1) "prompt_tokens")
                  (Py.get0 (snd reply1) "output_tokens") w2))
        else
          let w3 :=
            set_sent (sent w2 ++ [revision_prompt (fst reply1)]) w2 in
          match provider w (S (llm_calls w)) with
          | Raises e => (Raises e, w3)
          | Returns reply2 =>
              let tracer2 :=
                Tracer.log tracer1
                  (built_message w3 agent (agent_name +:+ "-reviser")
                     (fst reply2)) in
              let w4 := set_built (S (built w3)) w3 in
              if (attempt =? max_retries)%Z then
                (Returns (fst reply2,
                          Tracer.stamp tracer2 (time_time w4 (ticks w4))
                            (Some "pass_after_revise")
                            (Py.get0 (snd reply1) "prompt_tokens"
                             + Py.get0 (snd reply2) "prompt_tokens")
                            (Py.get0 (snd reply1) "output_tokens"
                             + Py.get0 (snd reply2) "output_tokens")),
                 snd (Tracer.finalize tracer2 (Some "pass_after_revise")
                        (Py.get0 (snd reply1) "prompt_tokens"
                         + Py.get0 (snd reply2) "prompt_tokens")
                        (Py.get0 (snd reply1) "output_tokens"
                         + Py.get0 (snd reply2) "output_tokens") w4))
              else
                reflective_loop attempts agent_name task_desc max_retries
                  tracer2 (fst reply2) w4
          end
    end.
Proof.
  cbn [reflective_loop]. cbv zeta.
  unfold bind at 1. unfold llm_call at 1. unfold llm_calls.
  destruct (provider w (List.length (sent w))) as [reply1|e]; [|reflexivity].
  unfold bind at 1. rewrite new_eq.
  destruct (Py.contains (Py.lower (fst reply1)) no_revision_marker).
  - exact (finish_eq _ _ _ _ _ (fun t => (draft, t))).
  - unfold bind at 1. unfold llm_call at 1.
    cbn [sent provider set_built set_sent]. rewrite length_app.
    cbn [List.length]. rewrite Nat.add_1_r.
    destruct (provider w (S (List.length (sent w)))) as [reply2|e];
      [|reflexivity].
    unfold bind at 1. rewrite new_eq.
    destruct (attempt =? max_retries)%Z; [|reflexivity].
    exact (finish_eq _ _ _ _ _ (fun t => (fst reply2, t))).
Qed.

Lemma finalize_frame (self : Tracer.t) (verdict : option string) (p o : Z)
    (w : World) :
  let w' := snd (Tracer.finalize self verdict p o w) in
  provider w' = provider w /\ sent w' = sent w
  /\ appends w' = S (appends w).
Proof.
  cbv zeta. rewrite finalize_eq. cbn [snd].
  destruct (disk w (appends w)); repeat split; reflexivity.
Qed.

Lemma latest_draft_app (d : option string) (l1 l2 : list APMessage.t) :
  latest_draft d (l1 ++ l2) = latest_draft (latest_draft d l1) l2.
Proof. apply fold_left_app. Qed.

(** What every run of the loop keeps, whatever the provider does. *)
Lemma reflective_loop_inv (attempts : list Z) :
  forall (agent_name task_desc : string) (max_retries : Z) (tracer : Tracer.t)
         (draft : string) (w : World) (r : Result (string * Tracer.t))
         (w' : World),
    reflective_loop attempts agent_name task_desc max_retries tracer draft w
    = (r, w') ->
    provider w' = provider w
    /\ (llm_calls w <= llm_calls w')%nat
    /\ match r with
       | Raises e =>
           appends w' = appends w
           /\ files w' = files w
           /\ exists k, (llm_calls w <= k < llm_calls w')%nat
                        /\ provider w k = Raises e
       | Returns (text, self) =>
           List.length (APExchange.messages (Tracer.exchange self))
           = (List.length (APExchange.messages (Tracer.exchange tracer))
              + (llm_calls w' - llm_calls w))%nat
           /\ (forall d,
                  latest_draft d (APExchange.messages (Tracer.exchange tracer))
                  = Some draft ->
                  latest_draft d (APExchange.messages (Tracer.exchange self))
                  = Some text)
           /\ (In max_retries attempts ->
               appends w' = S (appends w)
               /\ (APExchange.verdict (Tracer.exchange self) = Some "pass"
                   \/ APExchange.verdict (Tracer.exchange self)
                      = Some "pass_after_revise")
               /\ is_Some (latency self))
       end.
Proof.
  induction attempts as [|attempt attempts IH];
    intros agent_name task_desc max_retries tracer draft w r w'.
  - cbn. intros [= <- <-]. split; [reflexivity|]. split; [lia|].
    split; [lia|]. split; [auto|]. intros [].
  - rewrite reflective_loop_cons. cbv zeta.
    destruct (provider w (llm_calls w)) as [reply1|e] eqn:E1.
    2:{ intros [= <- <-]. unfold llm_calls. cbn [provider sent appends files set_sent].
        rewrite length_app. cbn [List.length].
        split; [reflexivity|]. split; [lia|].
        split; [reflexivity|]. split; [reflexivity|].
        exists (List.length (sent w)). split; [lia|exact E1]. }
    destruct (Py.contains (Py.lower (fst reply1)) no_revision_marker).
    { intros [= <- <-].
      match goal with
      | |- context [Tracer.finalize ?t ?v ?p ?o ?w0] =>
          destruct (finalize_frame t v p o w0) as (Hp & Hs & Ha);
          cbv zeta in Hp, Hs, Ha
      end.
      unfold llm_calls. rewrite Hp, Hs, Ha.
      cbn [provider sent appends set_sent set_built].
      rewrite length_app. cbn [List.length].
      split; [reflexivity|]. split; [lia|].
      split; [cbn; rewrite length_app; cbn; lia|].
      split.
      - intros d Hd.
        cbn [APExchange.messages Tracer.exchange Tracer.stamp Tracer.log].
        rewrite latest_draft_app, Hd. reflexivity.
      - intros _. split; [reflexivity|]. split; [now left|].
        eexists. reflexivity. }
    destruct (provider w (S (llm_calls w))) as [reply2|e] eqn:E2.
    2:{ intros [= <- <-]. unfold llm_calls.
        cbn [provider sent appends files set_sent set_built].
        rewrite !length_app. cbn [List.length].
        split; [reflexivity|]. split; [lia|].
        split; [reflexivity|]. split; [reflexivity|].
        exists (S (List.length (sent w))). split; [lia|exact E2]. }
    destruct (Z.eqb_spec attempt max_retries) as [Heq|Hne].
    { intros [= <- <-].
      match goal with
      | |- context [Tracer.finalize ?t ?v ?p ?o ?w0] =>
          destruct (finalize_frame t v p o w0) as (Hp & Hs & Ha);
          cbv zeta in Hp, Hs, Ha
      end.
      unfold llm_calls. rewrite Hp, Hs, Ha.
      cbn [provider sent appends set_sent set_built].
      rewrite !length_app. cbn [List.length].
      split; [reflexivity|]. split; [lia|].
      split; [cbn; rewrite !length_app; cbn; lia|].
      split.
      - intros d Hd.
        cbn [APExchange.messages Tracer.exchange Tracer.stamp Tracer.log].
        rewrite !latest_draft_app. reflexivity.
      - intros _. split; [reflexivity|]. split; [now right|].
        eexists. reflexivity. }
    intros Hrun. apply IH in Hrun as (Hp & Hc & Hr).
    unfold llm_calls in *.
    cbn [provider sent appends files set_sent set_built] in Hp, Hc, Hr.
    rewrite !length_app in Hc, Hr. cbn [List.length] in Hc, Hr.
    split; [exact Hp|]. split; [lia|].
    destruct r as [[text self]|e].
    + destruct Hr as (Hlen & Hlast & Hin).
      split.
      { rewrite Hlen. cbn. rewrite !length_app. cbn. lia. }
      split.
      { intros d Hd. apply Hlast.
        cbn [APExchange.messages Tracer.exchange Tracer.stamp Tracer.log].
        rewrite !latest_draft_app. reflexivity. }
      intros [Hhead|Htail]; [congruence|]. exact (Hin Htail).
    + destruct Hr as (Ha & Hf & k & Hk & Hprov).
      split; [exact Ha|]. split; [exact Hf|].
      exists k. split; [lia|exact Hprov].
Qed.

Lemma reflective_improve_eq (task_id agent_name task_desc draft : string)
    (max_retries : Z) (w : World) :
  reflective_improve task_id agent_name task_desc draft max_retries w
  = reflective_loop (range (max_retries + 1)) agent_name task_desc max_retries
      (fst (opening task_id agent_name task_desc draft w)) draft
      (snd (opening task_id agent_name task_desc draft w)).
Proof.
  unfold reflective_improve.
  unfold bind at 1. rewrite init_eq.
  unfold bind at 1. rewrite new_eq.
  unfold bind at 1. rewrite new_eq.
  reflexivity.
Qed.

(** X7: with a negative [max_retries] the loop body never runs:
    [reflective_improve] returns the draft it was given without calling
    the model, and without finalizing the tracer: the exchange holds the
    task description and the draft, has no verdict and no latency, and no
    record is written. *)
Theorem negative_budget_leaves_no_trace
    (task_id agent_name task_desc draft : string) (max_retries : Z)
    (w : World) :
  max_retries < 0 ->
  exists self w',
    reflective_improve task_id agent_name task_desc draft max_retries w
    = (Returns (draft, self), w')
    /\ transcript self = [(user, "user", task_desc); (agent, agent_name, draft)]
    /\ APExchange.verdict (Tracer.exchange self) = None
    /\ latency self = None
    /\ llm_calls w' = llm_calls w
    /\ appends w' = appends w
    /\ files w' = files w
    /\ logged w' = logged w.
Proof.
  intros HR. rewrite reflective_improve_eq.
  unfold range. rewrite seqZ_nil by lia. cbn [reflective_loop].
  do 2 eexists. split; [reflexivity|]. repeat split; reflexivity.
Qed.

(** The budget -1, on a world whose critic would have accepted. *)
Lemma negative_budget_leaves_no_trace_witness :
  exists self w',
    reflective_improve "t5" "Writer" "Summarise the report" "First draft." (-1)
      (scripted [Returns ("{" +:+ accepts_upper +:+ "}", usage 7 3)] [])
    = (Returns ("First draft.", self), w')
    /\ APExchange.verdict (Tracer.exchange self) = None
    /\ llm_calls w' = 0%nat
    /\ appends w' = 0%nat.
Proof.
  destruct (negative_budget_leaves_no_trace "t5" "Writer"
              "Summarise the report" "First draft." (-1)
              (scripted [Returns ("{" +:+ accepts_upper +:+ "}", usage 7 3)] []))
    as (self & w' & Hrun & _ & Hv & _ & Hc & Ha & _); [lia|].
  exists self, w'. repeat split; assumption.
Defined.

(** X8: for [max_retries >= 0], a run that returns has written (or tried
    to write) exactly one record, with the verdict [pass] or
    [pass_after_revise]; a run that raises raises the exception of a failed
    model call, and has written nothing: the messages logged so far are
    lost with the tracer. *)
Theorem one_record_or_none
    (task_id agent_name task_desc draft : string) (max_retries : Z)
    (w : World) :
  0 <= max_retries ->
  let run :=
    reflective_improve task_id agent_name task_desc draft max_retries w in
  match fst run with
  | Returns (text, self) =>
      appends (snd run) = S (appends w)
      /\ (APExchange.verdict (Tracer.exchange self) = Some "pass"
          \/ APExchange.verdict (Tracer.exchange self)
             = Some "pass_after_revise")
      /\ is_Some (latency self)
  | Raises e =>
      appends (snd run) = appends w
      /\ files (snd run) = files w
      /\ exists k, (llm_calls w <= k < llm_calls (snd run))%nat
                   /\ provider w k = Raises e
  end.
Proof.
  intros HR. cbv zeta. rewrite reflective_improve_eq.
  match goal with
  | |- context [reflective_loop ?l ?a ?t ?m ?tr ?d ?w0] =>
      destruct (reflective_loop l a t m tr d w0) as [r w'] eqn:Hrun
  end.
  apply reflective_loop_inv in Hrun as (Hp & Hc & Hr). cbn [fst snd].
  destruct r as [[text self]|e].
  - destruct Hr as (_ & _ & Hin). apply Hin.
    unfold range. apply list_elem_of_In, elem_of_seqZ. lia.
  - exact Hr.
Qed.

(** A critic that is down: the error comes out and no file is written. *)
Lemma one_record_or_none_witness :
  let run :=
    reflective_improve "t6" "Writer" "Summarise the report" "First draft." 1
      (scripted [Raises (Py.Exception "timeout")] []) in
  fst run = Raises (Py.Exception "timeout")
  /\ appends (snd run) = 0%nat
  /\ files (snd run) = ∅.
Proof.
  pose proof (one_record_or_none "t6" "Writer" "Summarise the report"
                "First draft." 1
                (scripted [Raises (Py.Exception "timeout")] [])
                ltac:(lia)) as H.
  cbv zeta in *.
  change (fst (reflective_improve "t6" "Writer" "Summarise the report"
                 "First draft." 1
                 (scripted [Raises (Py.Exception "timeout")] [])))
    with (@Raises (string * Tracer.t) (Py.Exception "timeout")) in H.
  destruct H as (Ha & Hf & _).
  split; [reflexivity|]. split; [exact Ha|exact Hf].
Defined.

(** X9: whenever [reflective_improve] returns, the exchange holds the task
    description, the initial draft and one message per model call made, and
    the text returned is the content of the last message of an agent role:
    the initial draft when nothing was revised, the last revision
    otherwise. *)
Theorem returns_latest_logged_draft
    (task_id agent_name task_desc draft : string) (max_retries : Z)
    (w : World) :
  let run :=
    reflective_improve task_id agent_name task_desc draft max_retries w in
  match fst run with
  | Returns (text, self) =>
      List.length (APExchange.messages (Tracer.exchange self))
      = (2 + (llm_calls (snd run) - llm_calls w))%nat
      /\ latest_draft None (APExchange.messages (Tracer.exchange self))
         = Some text
  | Raises _ => True
  end.
Proof.
  cbv zeta. rewrite reflective_improve_eq.
  match goal with
  | |- context [reflective_loop ?l ?a ?t ?m ?tr ?d ?w0] =>
      destruct (reflective_loop l a t m tr d w0) as [r w'] eqn:Hrun
  end.
  apply reflective_loop_inv in Hrun as (Hp & Hc & Hr). cbn [fst snd].
  destruct r as [[text self]|e]; [|exact I].
  destruct Hr as (Hlen & Hlast & _). split.
  - rewrite Hlen. reflexivity.
  - apply Hlast. reflexivity.
Qed.

(** *** A critic that never accepts *)

Lemma flat_map_seq_shift {A} (f : nat -> list A) (n : nat) :
  forall s, flat_map f (seq (S s) n) = flat_map (fun i => f (S i)) (seq s n).
Proof.
  induction n as [|n IH]; intros s; [reflexivity|].
  cbn [seq flat_map]. now rewrite IH.
Qed.

Lemma rounds_S (agent_name : string) (crit rev : nat -> string) (n : nat) :
  rounds agent_name crit rev (S n)
  = [(validator, "critic", crit 0%nat);
     (agent, agent_name +:+ "-reviser", rev 0%nat)]
    ++ rounds agent_name (fun i => crit (S i)) (fun i => rev (S i)) n.
Proof.
  unfold rounds. cbn [seq flat_map]. now rewrite flat_map_seq_shift.
Qed.

Lemma transcript_log (self : Tracer.t) (msg : APMessage.t) :
  transcript (Tracer.log self msg) = transcript self ++ [said msg].
Proof. unfold transcript. cbn. now rewrite map_app. Qed.

Lemma transcript_stamp (self : Tracer.t) (now : Q) (verdict : option string)
    (p o : Z) :
  transcript (Tracer.stamp self now verdict p o) = transcript self.
Proof. reflexivity. Qed.

Lemma loop_never_accepted (n : nat) :
  forall (a : Z) (agent_name task_desc : string) (max_retries : Z)
         (tracer : Tracer.t) (draft : string) (w : World)
         (crit rev : nat -> string * gmap string Z),
    a + Z.of_nat n = max_retries ->
    (forall i, (i <= n)%nat ->
        outcome w (2 * i) = Returns (crit i)
        /\ Py.contains (Py.lower (fst (crit i))) no_revision_marker = false
        /\ outcome w (2 * i + 1) = Returns (rev i)) ->
    exists self w',
      reflective_loop (seqZ a (Z.of_nat (S n))) agent_name task_desc
        max_retries tracer draft w
      = (Returns (fst (rev n), self), w')
      /\ transcript self
         = transcript tracer
           ++ rounds agent_name (fun i => fst (crit i)) (fun i => fst (rev i))
                (S n)
      /\ APExchange.verdict (Tracer.exchange self) = Some "pass_after_revise"
      /\ prompt_cost self
         = prompt_cost tracer + Py.get0 (snd (crit n)) "prompt_tokens"
           + Py.get0 (snd (rev n)) "prompt_tokens"
      /\ output_cost self
         = output_cost tracer + Py.get0 (snd (crit n)) "output_tokens"
           + Py.get0 (snd (rev n)) "output_tokens"
      /\ critique_calls w' = (critique_calls w + S n)%nat
      /\ revision_calls w' = (revision_calls w + S n)%nat
      /\ appends w' = S (appends w).
Proof.
  induction n as [|n IH];
    intros a agent_name task_desc max_retries tracer draft w crit rev Ha H.
  - destruct (H 0%nat ltac:(lia)) as (Hc & Hm & Hr).
    unfold outcome in Hc, Hr. cbn [Nat.mul Nat.add] in Hc, Hr.
    rewrite Nat.add_0_r in Hc. rewrite Nat.add_1_r in Hr.
    change (seqZ a (Z.of_nat 1)) with [a].
    rewrite reflective_loop_cons. cbv zeta. rewrite Hc, Hm, Hr.
    replace (a =? max_retries)%Z with true by (symmetry; apply Z.eqb_eq; lia).
    do 2 eexists. split; [reflexivity|].
    match goal with
    | |- context [Tracer.finalize ?t ?v ?p ?o ?w0] =>
        destruct (finalize_frame t v p o w0) as (Hp & Hs & Happ);
        cbv zeta in Hp, Hs, Happ
    end.
    split.
    { rewrite transcript_stamp, !transcript_log, <- app_assoc. reflexivity. }
    split; [reflexivity|].
    split; [unfold prompt_cost; cbn; lia|].
    split; [unfold output_cost; cbn; lia|].
    unfold critique_calls, revision_calls. rewrite Hs, Happ.
    cbn [sent appends set_sent set_built].
    split; [|split; [|reflexivity]].
    + edestruct (calls_after_critique w
                   (set_sent (sent w ++ [critic_prompt task_desc draft]) w))
        as [Hc1 Hr1]; [reflexivity|].
      edestruct (calls_after_revision
                   (set_sent (sent w ++ [critic_prompt task_desc draft]) w)
                   (set_sent ((sent w ++ [critic_prompt task_desc draft])
                              ++ [revision_prompt (fst (crit 0%nat))]) w))
        as [Hc2 Hr2]; [reflexivity|].
      unfold critique_calls, revision_calls in *.
      cbn [sent set_sent] in *. lia.
    + edestruct (calls_after_critique w
                   (set_sent (sent w ++ [critic_prompt task_desc draft]) w))
        as [Hc1 Hr1]; [reflexivity|].
      edestruct (calls_after_revision
                   (set_sent (sent w ++ [critic_prompt task_desc draft]) w)
                   (set_sent ((sent w ++ [critic_prompt task_desc draft])
                              ++ [revision_prompt (fst (crit 0%nat))]) w))
        as [Hc2 Hr2]; [reflexivity|].
      unfold critique_calls, revision_calls in *.
      cbn [sent set_sent] in *. lia.
  - destruct (H 0%nat ltac:(lia)) as (Hc & Hm & Hr).
    unfold outcome in Hc, Hr. cbn [Nat.mul Nat.add] in Hc, Hr.
    rewrite Nat.add_0_r in Hc. rewrite Nat.add_1_r in Hr.
    rewrite seqZ_cons by lia.
    replace (Z.pred (Z.of_nat (S (S n)))) with (Z.of_nat (S n)) by lia.
    rewrite reflective_loop_cons. cbv zeta. rewrite Hc, Hm, Hr.
    replace (a =? max_retries)%Z with false by (symmetry; apply Z.eqb_neq; lia).
    match goal with
    | |- context [reflective_loop _ _ _ _ ?tr ?d ?w0] =>
        destruct (IH (Z.succ a) agent_name task_desc max_retries tr d w0
                    (fun i => crit (S i)) (fun i => rev (S i)))
          as (self & w' & Hrun & Ht & Hv & Hpc & Hoc & Hcc & Hrc & Happ)
    end.
    { lia. }
    { intros i Hi. destruct (H (S i) ltac:(lia)) as (Hc' & Hm' & Hr').
      unfold outcome, llm_calls in *.
      cbn [provider sent set_sent set_built]. rewrite !length_app.
      cbn [List.length].
      replace (List.length (sent w) + 1 + 1 + 2 * i)%nat
        with (List.length (sent w) + 2 * S i)%nat by lia.
      replace (List.length (sent w) + 1 + 1 + (2 * i + 1))%nat
        with (List.length (sent w) + (2 * S i + 1))%nat by lia.
      auto. }
    exists self, w'. split; [exact Hrun|].
    split.
    { rewrite Ht, !transcript_log.
      rewrite (rounds_S agent_name (fun i => fst (crit i))
                 (fun i => fst (rev i)) (S n)).
      rewrite <- !app_assoc. reflexivity. }
    split; [exact Hv|].
    split; [rewrite Hpc; unfold prompt_cost; cbn; lia|].
    split; [rewrite Hoc; unfold output_cost; cbn; lia|].
    edestruct (calls_after_critique w
                 (set_sent (sent w ++ [critic_prompt task_desc draft]) w))
      as [Hc1 Hr1]; [reflexivity|].
    edestruct (calls_after_revision
                 (set_sent (sent w ++ [critic_prompt task_desc draft]) w)
                 (set_sent ((sent w ++ [critic_prompt task_desc draft])
                            ++ [revision_prompt (fst (crit 0%nat))]) w))
      as [Hc2 Hr2]; [reflexivity|].
    unfold critique_calls, revision_calls in *.
    cbn [sent appends set_sent set_built] in *.
    split; [lia|]. split; [lia|exact Happ].
Qed.

(** X10: a critic that never gives the marker drives the loop to its end.
    For [max_retries = R >= 0], when the [2R + 2] model calls succeed and
    no critique holds the marker, [reflective_improve] makes [R + 1]
    critique calls and [R + 1] revision calls, returns the last revision
    with the verdict [pass_after_revise], and its exchange holds the task
    description, the initial draft and then every critique followed by its
    revision, in order; the token totals are those of the last critique and
    the last revision only. *)
Theorem never_accepted_run
    (task_id agent_name task_desc draft : string) (max_retries : Z)
    (w : World) (crit rev : nat -> string * gmap string Z) :
  0 <= max_retries ->
  (forall i, (i <= Z.to_nat max_retries)%nat ->
      outcome w (2 * i) = Returns (crit i)
      /\ Py.contains (Py.lower (fst (crit i))) no_revision_marker = false
      /\ outcome w (2 * i + 1) = Returns (rev i)) ->
  let last := Z.to_nat max_retries in
  exists self w',
    reflective_improve task_id agent_name task_desc draft max_retries w
    = (Returns (fst (rev last), self), w')
    /\ transcript self
       = [(user, "user", task_desc); (agent, agent_name, draft)]
         ++ rounds agent_name (fun i => fst (crit i)) (fun i => fst (rev i))
              (S last)
    /\ APExchange.verdict (Tracer.exchange self) = Some "pass_after_revise"
    /\ prompt_cost self
       = Py.get0 (snd (crit last)) "prompt_tokens"
         + Py.get0 (snd (rev last)) "prompt_tokens"
    /\ output_cost self
       = Py.get0 (snd (crit last)) "output_tokens"
         + Py.get0 (snd (rev last)) "output_tokens"
    /\ critique_calls w' = (critique_calls w + S last)%nat
    /\ revision_calls w' = (revision_calls w + S last)%nat
    /\ appends w' = S (appends w).
Proof.
  intros HR H last. rewrite reflective_improve_eq. unfold range.
  replace (max_retries + 1) with (Z.of_nat (S last)) by (unfold last; lia).
  destruct (loop_never_accepted last 0 agent_name task_desc max_retries
              (fst (opening task_id agent_name task_desc draft w)) draft
              (snd (opening task_id agent_name task_desc draft w)) crit rev)
    as (self & w' & Hrun & Ht & Hv & Hpc & Hoc & Hcc & Hrc & Happ).
  { unfold last. lia. }
  { exact H. }
  exists self, w'. split; [exact Hrun|].
  split; [exact Ht|]. split; [exact Hv|].
  split; [rewrite Hpc; unfold prompt_cost; cbn; lia|].
  split; [rewrite Hoc; unfold output_cost; cbn; lia|].
  split; [exact Hcc|]. split; [exact Hrc|exact Happ].
Qed.

(** Budget 1, a critic that answers twice without the marker: two
    critiques, two revisions, six messages, and the totals of the second
    round (9 + 11 prompt tokens), not of both. *)
Lemma never_accepted_run_witness :
  exists self w',
    reflective_improve "t2" "Writer" "Summarise the report" "First draft." 1
      (scripted [Returns (asks_revision, usage 7 3);
                 Returns ("Second draft.", usage 10 20);
                 Returns (asks_revision, usage 9 4);
                 Returns ("Third draft.", usage 11 21)] [])
    = (Returns ("Third draft.", self), w')
    /\ transcript self
       = [(user, "user", "Summarise the report");
          (agent, "Writer", "First draft.");
          (validator, "critic", asks_revision);
          (agent, "Writer-reviser", "Second draft.");
          (validator, "critic", asks_revision);
          (agent, "Writer-reviser", "Third draft.")]
    /\ prompt_cost self = 20
    /\ critique_calls w' = 2%nat
    /\ revision_calls w' = 2%nat.
Proof.
  destruct (never_accepted_run "t2" "Writer" "Summarise the report"
              "First draft." 1
              (scripted [Returns (asks_revision, usage 7 3);
                         Returns ("Second draft.", usage 10 20);
                         Returns (asks_revision, usage 9 4);
                         Returns ("Third draft.", usage 11 21)] [])
              (fun i => match i with
                        | O => (asks_revision, usage 7 3)
                        | _ => (asks_revision, usage 9 4)
                        end)
              (fun i => match i with
                        | O => ("Second draft.", usage 10 20)
                        | _ => ("Third draft.", usage 11 21)
                        end))
    as (self & w' & Hrun & Ht & _ & Hpc & _ & Hcc & Hrc & _).
  - lia.
  - intros i Hi. change (Z.to_nat 1) with 1%nat in Hi.
    destruct i as [|[|i]]; [| |lia]; repeat split; vm_compute; reflexivity.
  - exists self, w'. split; [exact Hrun|].
    split; [exact Ht|]. split; [rewrite Hpc; reflexivity|].
    split; [exact Hcc|exact Hrc].
Defined.

(** ** More on the retry loop *)

(** One attempt, as an equation on worlds. *)
Lemma attempt_eq (self : AgentBase.t) (messages : Prompt) (w : World) :
  AgentBase.attempt self messages w
  = match provider w (llm_calls w) with
    | Returns reply =>
        (Returns (fst reply),
         set_logged (logged w ++ prompt_log self messages
                     ++ reply_log self (fst reply))
           (set_sent (sent w ++ [messages]) w))
    | Raises e =>
        (Raises e,
         set_logged (logged w ++ prompt_log self messages)
           (set_sent (sent w ++ [messages]) w))
    end.
Proof.
  unfold AgentBase.attempt, llm_calls, prompt_log, reply_log.
  destruct (AgentBase.verbose self).
  - unfold bind at 1. unfold bind at 1.
    unfold logger.info at 1, logger.emit at 1.
    rewrite for_each_debug.
    unfold bind at 1. unfold llm_call at 1.
    cbn [sent set_logged set_sent provider logged].
    destruct (provider w (List.length (sent w))) as [reply|e].
    + unfold bind, logger.info, logger.emit, ret.
      cbn [logged set_logged set_sent]. rewrite <- !app_assoc. reflexivity.
    + cbn [logged set_logged set_sent]. rewrite <- !app_assoc. reflexivity.
  - unfold bind, ret, llm_call.
    destruct (provider w (List.length (sent w))) as [reply|e];
      cbn [logged set_logged set_sent]; rewrite ?app_nil_r;
      destruct w; reflexivity.
Qed.

Lemma retry_log_S (self : AgentBase.t) (messages : Prompt)
    (e : nat -> Py.exn) (done : Z) (k : nat) :
  retry_log self messages e done (S k)
  = (prompt_log self messages
     ++ [(ERROR, AgentBase.error_entry self (e 0%nat) (done + 1))])
    ++ retry_log self messages (fun i => e (S i)) (done + 1) k.
Proof.
  unfold retry_log. cbn [seq flat_map]. rewrite flat_map_seq_shift.
  f_equal. apply flat_map_ext. intros i. do 4 f_equal. lia.
Qed.

(** [k] failures and a success, as an equation on worlds: the prompt went
    out [k + 1] times unchanged, and the log grew by the entries of the
    attempts. *)
Lemma while_retries_log (self : AgentBase.t) (messages : Prompt) :
  forall (k fuel : nat) (retries : Z) (w : World) (e : nat -> Py.exn)
         (text : string) (u : gmap string Z),
    (k < fuel)%nat ->
    retries + Z.of_nat k < AgentBase.max_retries self ->
    (forall j, (j < k)%nat -> outcome w j = Raises (e j)) ->
    outcome w k = Returns (text, u) ->
    AgentBase.while_retries fuel self messages retries w
    = Some (Returns text,
            set_logged
              (logged w ++ retry_log self messages e retries k
               ++ prompt_log self messages ++ reply_log self text)
              (set_sent (sent w ++ replicate (S k) messages) w)).
Proof.
  induction k as [|k IH]; intros fuel retries w e text u Hfuel Hlt Hfail Hok.
  - destruct fuel as [|fuel]; [lia|]. cbn [AgentBase.while_retries].
    destruct (Z.ltb_spec retries (AgentBase.max_retries self)); [|lia].
    rewrite attempt_eq.
    unfold outcome in Hok. rewrite Nat.add_0_r in Hok. rewrite Hok.
    reflexivity.
  - destruct fuel as [|fuel]; [lia|]. cbn [AgentBase.while_retries].
    destruct (Z.ltb_spec retries (AgentBase.max_retries self)); [|lia].
    rewrite attempt_eq.
    pose proof (Hfail 0%nat ltac:(lia)) as H0.
    unfold outcome in H0. rewrite Nat.add_0_r in H0. rewrite H0.
    erewrite (IH fuel (retries + 1) _ (fun i => e (S i)) text u).
    + rewrite retry_log_S. cbn [logger.error logger.emit snd logged sent
                               set_logged set_sent replicate].
      rewrite <- !app_assoc. reflexivity.
    + lia.
    + lia.
    + intros j Hj. unfold outcome, llm_calls.
      cbn [logger.error logger.emit snd provider sent set_logged set_sent].
      rewrite length_app. cbn [List.length].
      replace (List.length (sent w) + 1 + j)%nat
        with (List.length (sent w) + S j)%nat by lia.
      apply Hfail. lia.
    + unfold outcome, llm_calls.
      cbn [logger.error logger.emit snd provider sent set_logged set_sent].
      rewrite length_app. cbn [List.length].
      replace (List.length (sent w) + 1 + k)%nat
        with (List.length (sent w) + S k)%nat by lia.
      exact Hok.
Qed.




Lemma count_level_app (lv : Level) (a b : list (Level * string)) :
  count_level lv (a ++ b) = (count_level lv a + count_level lv b)%nat.
Proof. unfold count_level. now rewrite List.filter_app, length_app. Qed.

Lemma count_level_map (lv lv' : Level) {A} (f : A -> string) (l : list A) :
  count_level lv (map (fun x => (lv', f x)) l)
  = if bool_decide (lv' = lv) then List.length l else 0%nat.
Proof.
  unfold count_level. induction l as [|x l IH]; [now destruct (bool_decide _)|].
  cbn [map List.filter fst]. destruct (bool_decide (lv' = lv)); cbn; auto.
Qed.

Lemma count_prompt_log (self : AgentBase.t) (messages : Prompt) :
  AgentBase.verbose self = true ->
  count_level INFO (prompt_log self messages) = 1%nat
  /\ count_level DEBUG (prompt_log self messages) = List.length messages
  /\ count_level ERROR (prompt_log self messages) = 0%nat.
Proof.
  intros Hv. unfold prompt_log. rewrite Hv.
  repeat split.
  - change (?x :: ?l) with ([x] ++ l). rewrite count_level_app, count_level_map.
    reflexivity.
  - change (?x :: ?l) with ([x] ++ l). rewrite count_level_app, count_level_map.
    reflexivity.
  - change (?x :: ?l) with ([x] ++ l). rewrite count_level_app, count_level_map.
    reflexivity.
Qed.

Lemma count_retry_log (self : AgentBase.t) (messages : Prompt)
    (e : nat -> Py.exn) (done : Z) (k : nat) :
  AgentBase.verbose self = true ->
  count_level INFO (retry_log self messages e done k) = k
  /\ count_level DEBUG (retry_log self messages e done k)
     = (k * List.length messages)%nat
  /\ count_level ERROR (retry_log self messages e done k) = k.
Proof.
  intros Hv. destruct (count_prompt_log self messages Hv) as (Hi & Hd & He).
  unfold retry_log.
  generalize 0%nat as s.
  induction k as [|k IH]; intros s; [repeat split; reflexivity|].
  cbn [seq flat_map]. rewrite !count_level_app.
  destruct (IH (S s)) as (IHi & IHd & IHe).
  rewrite IHi, IHd, IHe, Hi, Hd, He.
  change (count_level INFO [(ERROR, ?m)]) with 0%nat.
  change (count_level DEBUG [(ERROR, ?m)]) with 0%nat.
  change (count_level ERROR [(ERROR, ?m)]) with 1%nat.
  repeat split; lia.
Qed.

(** X12: a verbose agent logs every attempt. When the model fails [k]
    times and then answers, within the budget, the log grows by [k + 2]
    info entries (one per attempt, and one for the reply), by one debug
    entry per message of the prompt and per attempt, and by [k] error
    entries. *)
Theorem verbose_agent_log_counts (self : AgentBase.t)
    (messages : Prompt) (temperature : Q) (max_tokens : Z) (w : World)
    (k : nat) (e : nat -> Py.exn) (text : string) (u : gmap string Z) :
  AgentBase.verbose self = true ->
  Z.of_nat k < AgentBase.max_retries self ->
  (forall j, (j < k)%nat -> outcome w j = Raises (e j)) ->
  outcome w k = Returns (text, u) ->
  exists w',
    AgentBase.call_openai self messages temperature max_tokens w
    = Some (Returns text, w')
    /\ entries INFO w' = (entries INFO w + k + 2)%nat
    /\ entries DEBUG w' = (entries DEBUG w + (k + 1) * List.length messages)%nat
    /\ entries ERROR w' = (entries ERROR w + k)%nat.
Proof.
  intros Hv Hk Hfail Hok. unfold AgentBase.call_openai.
  rewrite (while_retries_log self messages k _ 0 w e text u); try assumption;
    try lia.
  eexists. split; [reflexivity|].
  destruct (count_prompt_log self messages Hv) as (Hi & Hd & He).
  destruct (count_retry_log self messages e 0 k Hv) as (Ri & Rd & Re).
  assert (Hreply : reply_log self text
                   = [(INFO, "[" +:+ AgentBase.name self
                             +:+ "] Received response (first 120 chars): "
                             +:+ Py.replace_newlines (Py.slice_to 120 text))]).
  { unfold reply_log. now rewrite Hv. }
  unfold entries. cbn [logged set_logged set_sent].
  fold (count_level INFO (logged w)) (count_level DEBUG (logged w))
       (count_level ERROR (logged w)).
  change (List.length (List.filter (fun e0 => bool_decide (fst e0 = ?lv)) ?l))
    with (count_level lv l).
  rewrite !count_level_app, Hi, Hd, He, Ri, Rd, Re, Hreply.
  change (count_level INFO [(INFO, ?m)]) with 1%nat.
  change (count_level DEBUG [(INFO, ?m)]) with 0%nat.
  change (count_level ERROR [(INFO, ?m)]) with 0%nat.
  repeat split; lia.
Qed.

(** Two failures and an answer, for a verbose agent and a prompt of one
    message. *)
Lemma verbose_agent_log_counts_witness :
  exists w',
    AgentBase.call_openai (AgentBase.__init__ "Writer" 3 true)
      [chat "user" "hi"] (7 # 10) 150
      (scripted [Raises (Py.Exception "timeout");
                 Raises (Py.Exception "rate limit");
                 Returns ("ok", usage 4 2)] [])
    = Some (Returns "ok", w')
    /\ entries INFO w' = 4%nat
    /\ entries DEBUG w' = 3%nat
    /\ entries ERROR w' = 2%nat.
Proof.
  destruct (verbose_agent_log_counts
              (AgentBase.__init__ "Writer" 3 true)
              [chat "user" "hi"] (7 # 10) 150
              (scripted [Raises (Py.Exception "timeout");
                         Raises (Py.Exception "rate limit");
                         Returns ("ok", usage 4 2)] [])
              2
              (fun i => match i with
                        | O => Py.Exception "timeout"
                        | _ => Py.Exception "rate limit"
                        end)
              "ok" (usage 4 2))
    as (w' & Hrun & Hi & Hd & He).
  - reflexivity.
  - cbn. lia.
  - intros j Hj. destruct j as [|[|j]]; [reflexivity|reflexivity|lia].
  - reflexivity.
  - exists w'. split; [exact Hrun|]. rewrite Hi, Hd, He.
    repeat split; reflexivity.
Defined.



(** *** What a run leaves on disk *)




(** ** The sliding window *)






(** ** The registry of agents *)

(** X17: [get_agent] answers for the eight registered names and for no
    other: any other name, a registered name in another letter case
    included, raises [ValueError] with the message
    [Agent '<name>' not found.]. *)
Theorem get_agent_known_names
    (SummarizeValidatorAgent : Z -> bool -> AgentBase.t)
    (max_retries : Z) (verbose : bool) (agent_name : string) :
  let manager :=
    AgentManager.__init__ SummarizeValidatorAgent max_retries verbose in
  (agent_name ∈ registered ->
   exists a, AgentManager.get_agent manager agent_name = inr a)
  /\ (agent_name ∉ registered ->
      AgentManager.get_agent manager agent_name
      = inl (ValueError ("Agent '" +:+ agent_name +:+ "' not found."))).
Proof.
  cbv zeta. split.
  - intros Hin. unfold registered in Hin.
    repeat (apply elem_of_cons in Hin as [->|Hin]);
      try (eexists; reflexivity).
    now apply elem_of_nil in Hin.
  - intros Hout. unfold AgentManager.get_agent, AgentManager.__init__.
    cbn [AgentManager.agents].
    rewrite !lookup_insert_ne
      by (intros <-; apply Hout; unfold registered; set_solver).
    rewrite lookup_singleton_ne
      by (intros <-; apply Hout; unfold registered; set_solver).
    reflexivity.
Qed.

(** X18: the settings of the manager reach every agent it builds from a
    class of the sources: whatever the default of the class (three
    attempts for the tools, two for the others), the agent handed out has
    the [max_retries] and the [verbose] of the manager. *)
Theorem manager_settings_reach_agents
    (SummarizeValidatorAgent : Z -> bool -> AgentBase.t)
    (max_retries : Z) (verbose : bool) (agent_name : string)
    (a : AgentBase.t) :
  agent_name <> "summarize_validator" ->
  AgentManager.get_agent
    (AgentManager.__init__ SummarizeValidatorAgent max_retries verbose)
    agent_name = inr a ->
  AgentBase.max_retries a = max_retries /\ AgentBase.verbose a = verbose.
Proof.
  intros Hne Hget.
  destruct (decide (agent_name ∈ registered)) as [Hin|Hout].
  - unfold registered in Hin.
    repeat (apply elem_of_cons in Hin as [->|Hin]);
      try congruence;
      try (injection Hget as <-; split; reflexivity).
    now apply elem_of_nil in Hin.
  - unfold AgentManager.get_agent, AgentManager.__init__ in Hget.
    cbn [AgentManager.agents] in Hget.
    rewrite !lookup_insert_ne in Hget
      by (intros <-; apply Hout; unfold registered; set_solver).
    rewrite lookup_singleton_ne in Hget
      by (intros <-; apply Hout; unfold registered; set_solver).
    discriminate Hget.
Qed.

(** The manager of the application (two attempts), asked for the
    summarizer, whose class defaults to three. *)
Lemma manager_settings_reach_agents_witness :
  AgentManager.get_agent
    (AgentManager.__init__ (AgentBase.__init__ "SummarizeValidatorAgent") 2 true)
    "summarize"
  = inr (SummarizeTool 2 true)
  /\ AgentBase.max_retries (SummarizeTool 2 true) = 2
  /\ AgentBase.verbose (SummarizeTool 2 true) = true.
Proof.
  split; [reflexivity|].
  apply (manager_settings_reach_agents
           (AgentBase.__init__ "SummarizeValidatorAgent") 2 true "summarize"
           (SummarizeTool 2 true)); [discriminate|reflexivity].
Defined.

(** ** The trace viewer *)




(** ** Counting the calls of a run *)

Lemma filter_critic_prompt (task_desc draft : string) :
  List.filter (opens_with CRITIQUE_PROMPT) [critic_prompt task_desc draft]
  = [critic_prompt task_desc draft]
  /\ List.filter (opens_with REVISION_PROMPT) [critic_prompt task_desc draft]
     = [].
Proof.
  unfold critic_prompt. cbn [List.filter]. rewrite !opens_with_chat.
  rewrite (bool_decide_eq_true_2 _ eq_refl).
  rewrite bool_decide_eq_false_2 by (vm_compute; discriminate).
  split; reflexivity.
Qed.

Lemma filter_revision_prompt (critique : string) :
  List.filter (opens_with CRITIQUE_PROMPT) [revision_prompt critique] = []
  /\ List.filter (opens_with REVISION_PROMPT) [revision_prompt critique]
     = [revision_prompt critique].
Proof.
  unfold revision_prompt. cbn [List.filter]. rewrite !opens_with_chat.
  rewrite (bool_decide_eq_true_2 _ eq_refl).
  rewrite bool_decide_eq_false_2 by (vm_compute; discriminate).
  split; reflexivity.
Qed.

Ltac count_sent :=
  unfold critique_calls, revision_calls, llm_calls in *;
  cbn [sent set_sent set_built] in *;
  rewrite ?List.filter_app, ?length_app in *;
  repeat match goal with
    | |- context [List.filter _ [critic_prompt ?t ?d]] =>
        rewrite !(proj1 (filter_critic_prompt t d)),
                !(proj2 (filter_critic_prompt t d))
    | |- context [List.filter _ [revision_prompt ?c]] =>
        rewrite !(proj1 (filter_revision_prompt c)),
                !(proj2 (filter_revision_prompt c))
    end;
  cbn [List.length] in *.

(** The calls of the loop: critiques and revisions in turn. *)
Lemma reflective_loop_counts (attempts : list Z) :
  forall (agent_name task_desc : string) (max_retries : Z) (tracer : Tracer.t)
         (draft : string) (w : World) (r : Result (string * Tracer.t))
         (w' : World),
    reflective_loop attempts agent_name task_desc max_retries tracer draft w
    = (r, w') ->
    exists c v : nat,
      critique_calls w' = (critique_calls w + c)%nat
      /\ revision_calls w' = (revision_calls w + v)%nat
      /\ llm_calls w' = (llm_calls w + c + v)%nat
      /\ (v <= c)%nat /\ (c <= v + 1)%nat
      /\ (c <= List.length attempts)%nat
      /\ (attempts <> [] -> (1 <= c)%nat).
Proof.
  induction attempts as [|attempt attempts IH];
    intros agent_name task_desc max_retries tracer draft w r w'.
  - cbn. intros [= <- <-]. exists 0%nat, 0%nat.
    repeat split; try lia. congruence.
  - rewrite reflective_loop_cons. cbv zeta.
    destruct (provider w (llm_calls w)) as [reply1|e].
    2:{ intros [= <- <-]. exists 1%nat, 0%nat. count_sent.
        repeat split; intros; lia. }
    destruct (Py.contains (Py.lower (fst reply1)) no_revision_marker).
    { intros [= <- <-]. exists 1%nat, 0%nat.
      match goal with
      | |- context [Tracer.finalize ?t ?v ?p ?o ?w0] =>
          destruct (finalize_frame t v p o w0) as (_ & Hs & _);
          cbv zeta in Hs
      end.
      unfold critique_calls, revision_calls, llm_calls. rewrite Hs.
      count_sent. repeat split; intros; lia. }
    destruct (provider w (S (llm_calls w))) as [reply2|e].
    2:{ intros [= <- <-]. exists 1%nat, 1%nat. count_sent.
        repeat split; intros; lia. }
    destruct (attempt =? max_retries)%Z.
    { intros [= <- <-]. exists 1%nat, 1%nat.
      match goal with
      | |- context [Tracer.finalize ?t ?v ?p ?o ?w0] =>
          destruct (finalize_frame t v p o w0) as (_ & Hs & _);
          cbv zeta in Hs
      end.
      unfold critique_calls, revision_calls, llm_calls. rewrite Hs.
      count_sent. repeat split; intros; lia. }
    intros Hrun.
    apply IH in Hrun as (c & v & Hc & Hv & Hl & Hvc & Hcv & Hlen & _).
    exists (S c), (S v).
    revert Hc Hv Hl. count_sent. intros Hc Hv Hl.
    repeat split; intros; lia.
Qed.

(** X20: how many model calls a run makes, and of which kind: for
    [max_retries = R >= 0], [reflective_improve] makes at least one and at
    most [R + 1] critique calls; its revision calls are as many as its
    critique calls or one less, so at most [R + 1] too; and it makes no
    other call. *)
Theorem call_counts_within_budget
    (task_id agent_name task_desc draft : string) (max_retries : Z)
    (w : World) :
  0 <= max_retries ->
  let w' :=
    snd (reflective_improve task_id agent_name task_desc draft max_retries w) in
  exists c v : nat,
    critique_calls w' = (critique_calls w + c)%nat
    /\ revision_calls w' = (revision_calls w + v)%nat
    /\ llm_calls w' = (llm_calls w + c + v)%nat
    /\ (v <= c)%nat /\ (c <= v + 1)%nat
    /\ (1 <= c)%nat
    /\ Z.of_nat c <= max_retries + 1.
Proof.
  intros HR. cbv zeta. rewrite reflective_improve_eq.
  match goal with
  | |- context [reflective_loop ?l ?a ?t ?m ?tr ?d ?w0] =>
      destruct (reflective_loop l a t m tr d w0) as [r w'] eqn:Hrun
  end.
  apply reflective_loop_counts in Hrun
    as (c & v & Hc & Hv & Hl & Hvc & Hcv & Hlen & Hone).
  rewrite length_range in Hlen by lia.
  exists c, v. cbn [snd].
  split; [exact Hc|]. split; [exact Hv|]. split; [exact Hl|].
  split; [exact Hvc|]. split; [exact Hcv|]. split; [|lia].
  apply Hone. rewrite range_succ by exact HR. discriminate.
Qed.

(** Budget 1 and a critic that accepts the first revision: two critiques,
    one revision. *)
Lemma call_counts_within_budget_witness :
  let w' :=
    snd (reflective_improve "t7" "Writer" "Summarise the report"
           "First draft." 1
           (scripted [Returns (asks_revision, usage 7 3);
                      Returns ("Second draft.", usage 10 20);
                      Returns ("{" +:+ accepts_upper +:+ "}", usage 9 4)] []))
  in
  critique_calls w' = 2%nat /\ revision_calls w' = 1%nat
  /\ llm_calls w' = 3%nat.
Proof.
  pose proof (call_counts_within_budget "t7" "Writer"
                "Summarise the report" "First draft." 1
                (scripted [Returns (asks_revision, usage 7 3);
                           Returns ("Second draft.", usage 10 20);
                           Returns ("{" +:+ accepts_upper +:+ "}", usage 9 4)]
                   [])
                ltac:(lia)) as (c & v & _).
  cbv zeta. repeat split; vm_compute; reflexivity.
Defined.
